(** * Interactive Learning Tool: a shallow embedding of the quiz core

    The development follows the Python sources module by module:

    - [Py]                 the fragment of Python's values and builtins the
                           sources rely on ([int], [str], [bool], [list],
                           [or], [str.strip], [str.lower], [dict.get]);
    - [Core_question]      core/question.py;
    - [File_handler]       persistence/file_handler.py ([get_next_id]);
    - [Core_selector]      core/selector.py, with [random.choices] and
                           [random.sample] driven by an explicit random source;
    - [Llm_client]         llm/llm_client.py ([judge_freeform]);
    - [Core_evaluator]     core/evaluator.py;
    - [Core_quiz_manager]  core/quiz_manager.py, over an object heap so that
                           questions are shared by reference as in Python.

    Definitions come first, the lemmas and theorems about them afterwards. *)

From Stdlib Require Import ZArith QArith Qminmax String Ascii List Lia Bool.
From Stdlib Require Import DecimalString Lqa.
From stdpp Require Import base list gmap.

Import ListNotations.
Set Warnings "-register-all".
Set Default Proof Using "Type".
Local Open Scope Z_scope.

(* ===================================================================== *)
(** * Python values and builtins                                          *)
(* ===================================================================== *)

Module Py.

(** Exceptions are modelled by their class; messages are not tracked. *)
Inductive exn : Set :=
| ValueError
| TypeError
| AttributeError
| IndexError.

(** A computation either returns or raises. *)
Inductive result (A : Type) : Type :=
| Ok (a : A)
| Raise (e : exn).
Arguments Ok {A} a.
Arguments Raise {A} e.

Definition bind {A B} (m : result A) (k : A -> result B) : result B :=
  match m with
  | Ok a => k a
  | Raise e => Raise e
  end.

#[global] Instance result_ret : MRet result := @Ok.
#[global] Instance result_bind : MBind result := fun A B k m => bind m k.

Definition is_ok {A} (m : result A) : bool :=
  match m with Ok _ => true | Raise _ => false end.

(** The values that [json.load] can produce, floats apart: a persisted
    record is a [PyDict].  A dict keeps its keys in insertion order, so it is
    an association list; lookup takes the first binding of a key. *)
Inductive PyVal : Type :=
| PyNone
| PyBool (b : bool)
| PyInt (z : Z)
| PyStr (s : string)
| PyList (l : list PyVal)
| PyDict (d : list (string * PyVal)).

Definition dict : Type := list (string * PyVal).

(** ** Dictionaries *)

Fixpoint dict_find (d : dict) (key : string) : option PyVal :=
  match d with
  | [] => None
  | (k, v) :: d' => if String.eqb k key then Some v else dict_find d' key
  end.

(** [d.get(key, default)] *)
Definition dict_get (d : dict) (key : string) (default : PyVal) : PyVal :=
  match dict_find d key with
  | Some v => v
  | None => default
  end.

(** [key in d] *)
Definition dict_has (d : dict) (key : string) : bool :=
  match dict_find d key with Some _ => true | None => false end.

(** [d[key] = v]: an existing key keeps its place, a new key goes last. *)
Fixpoint dict_set (d : dict) (key : string) (v : PyVal) : dict :=
  match d with
  | [] => [(key, v)]
  | (k, v0) :: d' =>
      if String.eqb k key then (k, v) :: d' else (k, v0) :: dict_set d' key v
  end.

(** [d.update(other)] *)
Definition dict_update (d other : dict) : dict :=
  fold_left (fun acc kv => dict_set acc (fst kv) (snd kv)) other d.

(** ** Characters and strings

    A string is a sequence of code points below 256 (Latin-1). *)

Definition code (c : ascii) : nat := nat_of_ascii c.

Definition between (lo n hi : nat) : bool := (lo <=? n)%nat && (n <=? hi)%nat.

(** [str.isspace] on one character: the blanks [str.strip] removes. *)
Definition is_space (c : ascii) : bool :=
  let n := code c in
  between 9 n 13 || between 28 n 32 || (n =? 133)%nat || (n =? 160)%nat.

(** The blanks [int] accepts around a literal: the C locale's, and the two
    Latin-1 spaces that are mapped to a plain space first. *)
Definition is_int_space (c : ascii) : bool :=
  let n := code c in
  between 9 n 13 || (n =? 32)%nat || (n =? 133)%nat || (n =? 160)%nat.

Definition lower_char (c : ascii) : ascii :=
  let n := code c in
  if between 65 n 90 || (between 192 n 222 && negb (n =? 215)%nat)
  then ascii_of_nat (n + 32)
  else c.

(** [s.lower()] *)
Fixpoint lower (s : string) : string :=
  match s with
  | EmptyString => EmptyString
  | String c s' => String (lower_char c) (lower s')
  end.

Fixpoint lstrip (s : string) : string :=
  match s with
  | EmptyString => EmptyString
  | String c s' => if is_space c then lstrip s' else s
  end.

Fixpoint rstrip (s : string) : string :=
  match s with
  | EmptyString => EmptyString
  | String c s' =>
      match rstrip s' with
      | EmptyString => if is_space c then EmptyString else String c EmptyString
      | r => String c r
      end
  end.

(** [s.strip()] *)
Definition strip (s : string) : string := rstrip (lstrip s).

Definition is_empty (s : string) : bool :=
  match s with EmptyString => true | String _ _ => false end.

(** A string that is empty or holds blanks only. *)
Fixpoint is_blank (s : string) : bool :=
  match s with
  | EmptyString => true
  | String c s' => is_space c && is_blank s'
  end.

(** ** Truthiness, [or], [bool] *)

Definition truthy (v : PyVal) : bool :=
  match v with
  | PyNone => false
  | PyBool b => b
  | PyInt z => negb (z =? 0)
  | PyStr s => negb (is_empty s)
  | PyList l => match l with [] => false | _ => true end
  | PyDict d => match d with [] => false | _ => true end
  end.

(** [a or b] *)
Definition py_or (a b : PyVal) : PyVal := if truthy a then a else b.

(** [bool(v)] *)
Definition py_bool (v : PyVal) : bool := truthy v.

(** ** [int(v)] *)

Definition digit_of (c : ascii) : option Z :=
  let n := code c in
  if between 48 n 57 then Some (Z.of_nat (n - 48)) else None.

Inductive scan_state : Set := AtStart | AfterDigit | AfterUnderscore.

(** The digits of a decimal literal, single underscores allowed between two
    digits, then blanks up to the end of the string. *)
Fixpoint scan_digits (acc : Z) (prev : scan_state) (s : string) : option Z :=
  match s with
  | EmptyString =>
      match prev with AfterDigit => Some acc | _ => None end
  | String c s' =>
      match digit_of c with
      | Some d => scan_digits (10 * acc + d) AfterDigit s'
      | None =>
          if Ascii.eqb c "_"%char then
            match prev with
            | AfterDigit => scan_digits acc AfterUnderscore s'
            | _ => None
            end
          else
            match prev with
            | AfterDigit =>
                if (fix blanks (t : string) : bool :=
                      match t with
                      | EmptyString => true
                      | String b t' => is_int_space b && blanks t'
                      end) s
                then Some acc else None
            | _ => None
            end
      end
  end.

Fixpoint skip_int_space (s : string) : string :=
  match s with
  | EmptyString => EmptyString
  | String c s' => if is_int_space c then skip_int_space s' else s
  end.

(** [int(s)] for a string, base 10. *)
Definition int_of_str (s : string) : option Z :=
  match skip_int_space s with
  | String "-" body => option_map Z.opp (scan_digits 0 AtStart body)
  | String "+" body => scan_digits 0 AtStart body
  | body => scan_digits 0 AtStart body
  end.

Definition py_int (v : PyVal) : result Z :=
  match v with
  | PyInt z => Ok z
  | PyBool b => Ok (if b then 1 else 0)
  | PyStr s =>
      match int_of_str s with
      | Some z => Ok z
      | None => Raise ValueError
      end
  | PyNone | PyList _ | PyDict _ => Raise TypeError
  end.

(** ** [str(v)] and [repr(v)] *)

Definition str_of_Z (z : Z) : string := NilEmpty.string_of_int (Z.to_int z).

Definition quote1 : ascii := ascii_of_nat 39.
Definition quote2 : ascii := ascii_of_nat 34.
Definition backslash : ascii := ascii_of_nat 92.

Fixpoint contains (c : ascii) (s : string) : bool :=
  match s with
  | EmptyString => false
  | String c' s' => Ascii.eqb c c' || contains c s'
  end.

Definition hex_digit (n : nat) : ascii :=
  if (n <? 10)%nat then ascii_of_nat (48 + n) else ascii_of_nat (87 + n).

(** One character of a string's [repr], inside the quotes [q]. *)
Definition repr_char (q c : ascii) : string :=
  let n := code c in
  if Ascii.eqb c q || Ascii.eqb c backslash
  then String backslash (String c EmptyString)
  else if (n =? 9)%nat then String backslash "t"
  else if (n =? 10)%nat then String backslash "n"
  else if (n =? 13)%nat then String backslash "r"
  else if (n <? 32)%nat || between 127 n 160 || (n =? 173)%nat
  then String backslash
         (String "x" (String (hex_digit (n / 16)) (String (hex_digit (n mod 16)) EmptyString)))
  else String c EmptyString.

Fixpoint repr_chars (q : ascii) (s : string) : string :=
  match s with
  | EmptyString => EmptyString
  | String c s' => (repr_char q c ++ repr_chars q s')%string
  end.

(** [repr(s)]: single quotes, unless the string holds one and no double quote. *)
Definition repr_str (s : string) : string :=
  let q := if contains quote1 s && negb (contains quote2 s) then quote2 else quote1 in
  String q (repr_chars q s ++ String q EmptyString)%string.

Fixpoint join (sep : string) (parts : list string) : string :=
  match parts with
  | [] => EmptyString
  | [p] => p
  | p :: rest => (p ++ sep ++ join sep rest)%string
  end.

Fixpoint py_repr (v : PyVal) : string :=
  match v with
  | PyNone => "None"
  | PyBool b => if b then "True" else "False"
  | PyInt z => str_of_Z z
  | PyStr s => repr_str s
  | PyList l => ("[" ++ join ", " (List.map py_repr l) ++ "]")%string
  | PyDict d =>
      ("{" ++ join ", "
         (List.map (fun kv => (repr_str (fst kv) ++ ": " ++ py_repr (snd kv))%string) d)
         ++ "}")%string
  end.

(** [str(v)] *)
Definition py_str (v : PyVal) : string :=
  match v with
  | PyStr s => s
  | _ => py_repr v
  end.

(** ** [list(v)] *)

Fixpoint chars_of (s : string) : list PyVal :=
  match s with
  | EmptyString => []
  | String c s' => PyStr (String c EmptyString) :: chars_of s'
  end.

Definition py_list (v : PyVal) : result (list PyVal) :=
  match v with
  | PyList l => Ok l
  | PyStr s => Ok (chars_of s)
  | PyDict d => Ok (List.map (fun kv => PyStr (fst kv)) d)
  | PyNone | PyBool _ | PyInt _ => Raise TypeError
  end.

(** ** Methods that only some values have *)

(** [v.lower()] *)
Definition py_lower (v : PyVal) : result string :=
  match v with
  | PyStr s => Ok (lower s)
  | _ => Raise AttributeError
  end.

(** [v.strip()] *)
Definition py_strip (v : PyVal) : result string :=
  match v with
  | PyStr s => Ok (strip s)
  | _ => Raise AttributeError
  end.

(** [v.get(key, default)] *)
Definition py_get (v : PyVal) (key : string) (default : PyVal) : result PyVal :=
  match v with
  | PyDict d => Ok (dict_get d key default)
  | _ => Raise AttributeError
  end.

End Py.


(* ===================================================================== *)
(** * core/question.py                                                    *)
(* ===================================================================== *)

Module Core_question.
Import Py.

(** The fields of the base dataclass [Question]. *)
Record Base : Type := mkBase {
  id : Z;
  topic : string;
  type : string;
  question : string;
  source : string;
  active : bool;
  times_shown : Z;
  correct_count : Z;
  incorrect_count : Z
}.

(** The class hierarchy as a sum.  [from_dict] stores [options] and
    [explanation] as it finds them, so they are Python values here;
    [explanation = PyNone] is the absent explanation. *)
Inductive Question : Type :=
| BaseQuestion (base : Base)
| MCQQuestion (base : Base) (options : list PyVal) (correct_answer : string)
              (explanation : PyVal)
| FreeformQuestion (base : Base) (reference_answer : string).

Definition base_of (q : Question) : Base :=
  match q with
  | BaseQuestion b => b
  | MCQQuestion b _ _ _ => b
  | FreeformQuestion b _ => b
  end.

Definition with_base (f : Base -> Base) (q : Question) : Question :=
  match q with
  | BaseQuestion b => BaseQuestion (f b)
  | MCQQuestion b o c e => MCQQuestion (f b) o c e
  | FreeformQuestion b r => FreeformQuestion (f b) r
  end.

Definition is_mcq (q : Question) : bool :=
  match q with MCQQuestion _ _ _ _ => true | _ => false end.

Definition is_freeform (q : Question) : bool :=
  match q with FreeformQuestion _ _ => true | _ => false end.

(** [Question.as_dict] *)
Definition base_as_dict (self : Base) : dict :=
  [ ("id"%string, PyInt (id self));
    ("topic"%string, PyStr (topic self));
    ("type"%string, PyStr (type self));
    ("question"%string, PyStr (question self));
    ("source"%string, PyStr (source self));
    ("active"%string, PyBool (active self));
    ("times_shown"%string, PyInt (times_shown self));
    ("correct_count"%string, PyInt (correct_count self));
    ("incorrect_count"%string, PyInt (incorrect_count self)) ].

(** [as_dict], dispatched on the class of [self]. *)
Definition as_dict (self : Question) : dict :=
  match self with
  | BaseQuestion b => base_as_dict b
  | MCQQuestion b options correct_answer explanation =>
      let data :=
        dict_update (base_as_dict b)
          [ ("options"%string, PyList options);
            ("correct_answer"%string, PyStr correct_answer) ] in
      match explanation with
      | PyNone => data
      | _ => dict_set data "explanation" explanation
      end
  | FreeformQuestion b reference_answer =>
      dict_set (base_as_dict b) "reference_answer" (PyStr reference_answer)
  end.

(** [Question.from_dict] *)
Definition from_dict (dictionary : dict) : result Question :=
  qtype ← py_lower (py_or (dict_get dictionary "type" PyNone) (PyStr ""));
  id_ ← py_int (dict_get dictionary "id" (PyInt 0));
  let topic_ := py_str (dict_get dictionary "topic" (PyStr "")) in
  let question_ := py_str (dict_get dictionary "question" (PyStr "")) in
  let source_ := py_str (dict_get dictionary "source" (PyStr "LLM")) in
  let active_ := py_bool (dict_get dictionary "active" (PyBool true)) in
  times_shown_ ← py_int (dict_get dictionary "times_shown" (PyInt 0));
  correct_count_ ← py_int (dict_get dictionary "correct_count" (PyInt 0));
  incorrect_count_ ← py_int (dict_get dictionary "incorrect_count" (PyInt 0));
  let base_kwargs :=
    mkBase id_ topic_ qtype question_ source_ active_
           times_shown_ correct_count_ incorrect_count_ in
  if String.eqb qtype "multiple-choice" then
    options_ ← py_list (py_or (dict_get dictionary "options" (PyList []))
                               (PyList []));
    Ok (MCQQuestion base_kwargs options_
          (py_str (dict_get dictionary "correct_answer" (PyStr "")))
          (dict_get dictionary "explanation" PyNone))
  else
    Ok (FreeformQuestion base_kwargs
          (py_str (dict_get dictionary "reference_answer" (PyStr "")))).

End Core_question.

(* ===================================================================== *)
(** * persistence/file_handler.py                                         *)
(* ===================================================================== *)

Module File_handler.
Import Py.

(** One turn of the loop of [get_next_id]: an id that [int] refuses is
    skipped by the [except] clause. *)
Definition next_max (max_id : Z) (question : dict) : Z :=
  match py_int (dict_get question "id" (PyInt 0)) with
  | Ok qid => if qid >? max_id then qid else max_id
  | Raise _ => max_id
  end.

Definition get_next_id (questions : list dict) : Z :=
  let max_id := fold_left next_max questions 0 in
  max_id + 1.

(** The questions file is taken as [json.load] reads it; [None] stands for a
    file that is missing or that [json.load] refuses. *)

(** [load_questions] *)
Definition load_questions (file : option PyVal) : list PyVal :=
  match file with
  | None => []
  | Some (PyList data) => data
  | Some (PyDict data) =>
      match dict_get data "questions" PyNone with
      | PyList questions => questions
      | _ => []
      end
  | Some _ => []
  end.



End File_handler.

(* ===================================================================== *)
(** * core/selector.py                                                    *)
(* ===================================================================== *)

Module Core_selector.
Import Py Core_question.

(** Weights are Python floats; they are modelled by the rationals they
    stand for, so rounding and overflow to infinity are left out. *)
Definition Qltb (x y : Q) : bool := (Qnum x * QDen y <? Qnum y * QDen x)%Z.

(** ** [random.choices(population, weights, k=1)[0]]

    [u] is the value [random()] returns. *)



(** [bisect.bisect_right(a, x, lo, hi)]: the loop halves [hi - lo], which
    bounds the number of turns. *)
Fixpoint bisect_loop (turns : nat) (a : list Q) (x : Q) (lo hi : nat) : nat :=
  match turns with
  | O => lo
  | S turns' =>
      if (lo <? hi)%nat then
        let mid := ((lo + hi) / 2)%nat in
        if Qltb x (nth mid a 0%Q)
        then bisect_loop turns' a x lo mid
        else bisect_loop turns' a x (mid + 1)%nat hi
      else lo
  end.

Definition bisect (a : list Q) (x : Q) (lo hi : nat) : nat :=
  bisect_loop (hi - lo) a x lo hi.




(** ** [random.sample(population, k)]

    The selection on a pool: the drawn slot is refilled with the last
    unselected one.  [rnd i] is the raw value behind the [i]-th call of
    [randbelow], reduced into the range asked for.  (For a population much
    larger than the sample CPython draws positions and rejects repeated ones
    instead; the outcome is again a list of elements at distinct positions.) *)
Fixpoint sample_loop {A} (rnd : nat -> nat) (pool : list A) (n i k : nat)
  : result (list A) :=
  match k with
  | O => Ok []
  | S k' =>
      let j := (rnd i mod (n - i))%nat in
      match pool !! j, pool !! (n - i - 1)%nat with
      | Some x, Some y =>
          rest ← sample_loop rnd (<[j := y]> pool) n (S i) k';
          Ok (x :: rest)
      | _, _ => Raise IndexError
      end
  end.

Definition sample {A} (rnd : nat -> nat) (population : list A) (k : Z)
  : result (list A) :=
  let n := length population in
  if negb ((0 <=? k) && (k <=? Z.of_nat n)) then Raise ValueError
  else sample_loop rnd population n 0 (Z.to_nat k).

Definition random_unique {A} (rnd : nat -> nat) (questions : list A)
    (number_of_questions : Z) : result (list A) :=
  if number_of_questions <=? 0 then Ok []
  else
    let number_of_questions :=
      Z.min number_of_questions (Z.of_nat (length questions)) in
    sample rnd questions number_of_questions.

End Core_selector.

(* ===================================================================== *)
(** * llm/llm_client.py                                                   *)
(* ===================================================================== *)

Module Llm_client.
Import Py.

(** What lies outside the program: the rendering of the prompt template,
    which returns the prompt or fails with an exception's class name and
    message, and the model behind [LLMClient.complete], which answers a
    prompt with a mapping (an error mapping when the call fails). *)
Record service : Type := {
  render_template : string -> string -> string -> string + (string * string);
  complete : string -> dict
}.

Definition error_dict (type_name message : string) : dict :=
  [ ("error"%string,
     PyDict [ ("type"%string, PyStr type_name);
              ("message"%string, PyStr message) ]) ].

(** [judge_freeform(question, reference_answer, user_answer)] *)
Definition judge_freeform (client : service)
    (question reference_answer user_answer : string) : result PyVal :=
  match render_template client question reference_answer user_answer with
  | inr (type_name, message) => Ok (PyDict (error_dict type_name message))
  | inl prompt =>
      let result := complete client prompt in
      if dict_has result "error" then Ok (PyDict result)
      else
        judgment ← py_strip (py_or (dict_get result "judgment" PyNone) (PyStr ""));
        explanation ← py_strip (py_or (dict_get result "explanation" PyNone) (PyStr ""));
        Ok (PyDict [ ("judgment"%string, PyStr judgment);
                     ("explanation"%string, PyStr explanation) ])
  end.

(** What [generate_questions] does to the outside, in order. *)
Inductive event : Type :=
| Rendered (topic : string) (num_mcq num_freeform : Z)
| Completed (prompt : string).

(** config.py *)
Definition DEFAULT_NUM_MCQ : Z := 3.
Definition DEFAULT_NUM_FREEFORM : Z := 1.

(** [generate_questions(topic, num_mcq, num_freeform)]: [render] stands for
    the rendering of the generation template, [complete_] for the model. *)
Definition generate_questions
    (render : string -> Z -> Z -> string + (string * string))
    (complete_ : string -> dict)
    (topic : string) (num_mcq num_freeform : option Z) : dict * list event :=
  let topic := strip topic in
  if is_empty topic then
    (error_dict "ValueError" "Topic must be a non-empty string.", [])
  else
    let num_mcq :=
      match num_mcq with None => DEFAULT_NUM_MCQ | Some n => Z.max 0 n end in
    let num_freeform :=
      match num_freeform with
      | None => DEFAULT_NUM_FREEFORM
      | Some n => Z.max 0 n
      end in
    match render topic num_mcq num_freeform with
    | inr (type_name, message) =>
        (error_dict type_name message, [Rendered topic num_mcq num_freeform])
    | inl prompt =>
        (complete_ prompt,
         [Rendered topic num_mcq num_freeform; Completed prompt])
    end.


End Llm_client.

(* ===================================================================== *)
(** * core/evaluator.py                                                   *)
(* ===================================================================== *)

Module Core_evaluator.
Import Py Core_question.

(** [evaluate_mcq(mcq_question, user_choice)] *)
Definition evaluate_mcq (mcq_question : Question) (user_choice : string)
  : result (bool * PyVal) :=
  match mcq_question with
  | MCQQuestion _ _ correct_answer explanation =>
      let is_correct :=
        String.eqb (lower (strip user_choice)) (lower (strip correct_answer)) in
      Ok (is_correct, py_or explanation (PyStr ""))
  | _ => Raise AttributeError
  end.

(** A call of the delegated judgment: question, reference answer, answer. *)
Definition call : Type := string * string * string.

(** Computations that may call the judge: the calls made so far are threaded
    through, and kept when the computation raises. *)
Definition Eff (A : Type) : Type := list call -> result A * list call.

Definition eff_ret {A} (a : A) : Eff A := fun calls => (Ok a, calls).

Definition eff_bind {A B} (m : Eff A) (k : A -> Eff B) : Eff B :=
  fun calls =>
    match m calls with
    | (Ok a, calls') => k a calls'
    | (Raise e, calls') => (Raise e, calls')
    end.

Definition eff_lift {A} (m : result A) : Eff A := fun calls => (m, calls).

#[global] Instance eff_mret : MRet Eff := @eff_ret.
#[global] Instance eff_mbind : MBind Eff := fun A B k m => eff_bind m k.

Section Judge.

(** The judge [evaluate_freeform] delegates to. *)
Variable judge : string -> string -> string -> result PyVal.

Definition call_judge (question reference_answer user_answer : string)
  : Eff PyVal :=
  fun calls =>
    (judge question reference_answer user_answer,
     calls ++ [(question, reference_answer, user_answer)]).

(** The attributes [evaluate_freeform] reads off its question. *)
Definition freeform_attrs (q : Question) : result (string * string) :=
  match q with
  | FreeformQuestion b reference_answer => Ok (question b, reference_answer)
  | _ => Raise AttributeError
  end.

(** What [evaluate_freeform] makes of the judge's result. *)
Definition read_judgment (result : PyVal) : Py.result (bool * PyVal) :=
  match result with
  | PyDict d =>
      match dict_find d "error" with
      | Some error =>
          message ← py_get error "message" (PyStr "Unknown");
          Ok (false, PyStr ("LLM error: " ++ py_str message))
      | None =>
          judgment_ ← py_strip (py_or (dict_get d "judgment" PyNone) (PyStr ""));
          let judgment := lower judgment_ in
          let explanation := py_or (dict_get d "explanation" PyNone) (PyStr "") in
          Ok (String.eqb judgment "correct", explanation)
      end
  | _ => Raise AttributeError
  end.

(** [evaluate_freeform(freeform_question, user_answer)] *)
Definition evaluate_freeform (freeform_question : Question)
    (user_answer : string) : Eff (bool * PyVal) :=
  answered ← eff_lift (py_strip (py_or (PyStr user_answer) (PyStr "")));
  if is_empty answered then
    mret (false, PyStr "The question was not answered")
  else
    attrs ← eff_lift (freeform_attrs freeform_question);
    result ← call_judge (fst attrs) (snd attrs) user_answer;
    eff_lift (read_judgment result).

End Judge.

(** The evaluator as the program runs it, against [judge_freeform]. *)
Definition evaluate_freeform_with (client : Llm_client.service)
    (freeform_question : Question) (user_answer : string)
  : result (bool * PyVal) * list call :=
  evaluate_freeform (Llm_client.judge_freeform client)
    freeform_question user_answer [].

End Core_evaluator.

(* ===================================================================== *)
(** * core/quiz_manager.py                                                *)
(* ===================================================================== *)

Module Core_quiz_manager.
Import Py Core_question File_handler.

(** Questions are objects: the manager's list, the selectors' results and
    the callers all hold references to the same objects. *)
Definition ref : Set := nat.

Record World : Type := mkWorld {
  heap : gmap nat Question;      (* the objects *)
  _questions : list ref;         (* QuizManager._questions *)
  saved : list dict              (* the persisted collection *)
}.

(** The objects the manager's list refers to, in order. *)
Definition objects (h : gmap nat Question) (refs : list ref) : list Question :=
  omap (fun r => h !! r) refs.

(** [self._persist()] *)
Definition _persist (w : World) : World :=
  mkWorld (heap w) (_questions w)
          (List.map as_dict (objects (heap w) (_questions w))).

Definition set_id (next_id : Z) (b : Base) : Base :=
  mkBase next_id (topic b) (type b) (question b) (source b) (active b)
         (times_shown b) (correct_count b) (incorrect_count b).

(** The loop of [add_questions]. *)
Fixpoint assign_ids (h : gmap nat Question) (questions : list ref)
    (next_id : Z) (new_questions : list ref)
  : gmap nat Question * list ref :=
  match new_questions with
  | [] => (h, questions)
  | question :: rest =>
      assign_ids (alter (with_base (set_id next_id)) question h)
                 (questions ++ [question]) (next_id + 1) rest
  end.

(** [QuizManager.add_questions] *)
Definition add_questions (w : World) (new_questions : list ref) : World :=
  let next_id := get_next_id (List.map as_dict (objects (heap w) (_questions w))) in
  let '(h, questions) := assign_ids (heap w) (_questions w) next_id new_questions in
  _persist (mkWorld h questions (saved w)).

Definition bump (is_correct : bool) (b : Base) : Base :=
  let times_shown' := times_shown b + 1 in
  if is_correct then
    mkBase (id b) (topic b) (type b) (question b) (source b) (active b)
           times_shown' (correct_count b + 1) (incorrect_count b)
  else
    mkBase (id b) (topic b) (type b) (question b) (source b) (active b)
           times_shown' (correct_count b) (incorrect_count b + 1).

(** [QuizManager.record_result] *)
Definition record_result (w : World) (question : ref) (is_correct : bool)
  : World :=
  _persist (mkWorld (alter (with_base (bump is_correct)) question (heap w))
                    (_questions w) (saved w)).

(** A test on the object behind a reference. *)
Definition deref_test (h : gmap nat Question) (test : Question -> bool)
    (r : ref) : bool :=
  match h !! r with
  | Some q => test q
  | None => false
  end.

(** [QuizManager.list_all] *)
Definition list_all (w : World) : list ref := _questions w.

(** [QuizManager.list_active] *)
Definition list_active (w : World) : list ref :=
  List.filter (deref_test (heap w) (fun q => active (base_of q))) (_questions w).

(** [QuizManager.find_by_id] *)
Definition find_by_id (w : World) (qid : Z) : option ref :=
  List.find (deref_test (heap w) (fun q => id (base_of q) =? qid)) (_questions w).

Definition set_active (active_ : bool) (b : Base) : Base :=
  mkBase (id b) (topic b) (type b) (question b) (source b) active_
         (times_shown b) (correct_count b) (incorrect_count b).

(** [QuizManager.toggle_active]: the world afterwards and the value returned. *)
Definition toggle_active (w : World) (qid : Z) (active_ : bool) : World * bool :=
  match find_by_id w qid with
  | None => (w, false)
  | Some question =>
      (_persist (mkWorld (alter (with_base (set_active active_)) question (heap w))
                         (_questions w) (saved w)),
       true)
  end.

(** [Question.from_dict(d)] for an element of the loaded list. *)
Definition from_dict_any (d : PyVal) : result Question :=
  match d with
  | PyDict dictionary => from_dict dictionary
  | _ => Raise AttributeError
  end.

(** [[Question.from_dict(d) for d in records]] *)
Fixpoint from_dicts (records : list PyVal) : result (list Question) :=
  match records with
  | [] => Ok []
  | d :: rest =>
      q ← from_dict_any d;
      qs ← from_dicts rest;
      Ok (q :: qs)
  end.

(** [QuizManager.__init__]: the objects it creates and the list of them.
    Every question [from_dict] builds has a boolean [active], so the loop
    that fills in a missing one changes nothing. *)
Definition init (file : option PyVal) : result (gmap nat Question * list ref) :=
  qs ← from_dicts (load_questions file);
  Ok (map_seq 0 qs, seq 0 (length qs)).


End Core_quiz_manager.

(* ===================================================================== *)
(** * core/statistics.py                                                  *)
(* ===================================================================== *)

Module Core_statistics.
Import Py Core_question.


End Core_statistics.

(* ===================================================================== *)
(** * core/user_answer_processor.py                                       *)
(* ===================================================================== *)

Module Core_user_answer_processor.
Import Py Core_question Core_evaluator.

(** The console: [line] is what [input] returns, and a function that prints
    returns the lines it printed beside its value. *)

(** [get_user_answer] *)
Definition get_user_answer (line : string) : string := strip line.

(** [handle_exit] *)
Definition handle_exit (answer : string) : bool * list string :=
  if String.eqb (lower answer) "exit"
  then (true, ["Exiting this Mode."%string])
  else (false, []).

(** [answer in {"a", "b", "c", "d"}], with [ord(answer) - ord("a")]. *)
Definition letter_index (answer : string) : option nat :=
  if String.eqb answer "a" then Some 0%nat
  else if String.eqb answer "b" then Some 1%nat
  else if String.eqb answer "c" then Some 2%nat
  else if String.eqb answer "d" then Some 3%nat
  else None.

(** [question.options] *)
Definition options_of (question : Question) : result (list PyVal) :=
  match question with
  | MCQQuestion _ options _ _ => Ok options
  | _ => Raise AttributeError
  end.

(** [evaluate_mcq] on a choice that need not be a string. *)
Definition evaluate_mcq_any (question : Question) (user_choice : PyVal)
  : result (bool * PyVal) :=
  match user_choice with
  | PyStr s => evaluate_mcq question s
  | _ => Raise AttributeError
  end.

(** [process_mcq]: [Ok None] is the pair [(None, None)] of an exit. *)
Definition process_mcq (question : Question) (line : string)
  : result (option (bool * PyVal)) * list string :=
  let answer := lower (get_user_answer line) in
  let '(exit_requested, printed) := handle_exit answer in
  if exit_requested then (Ok None, printed)
  else
    (answer_text ←
       match letter_index answer with
       | Some index =>
           options ← options_of question;
           Ok (match options !! index with
               | Some option => option
               | None => PyStr answer
               end)
       | None => Ok (PyStr answer)
       end;
     verdict ← evaluate_mcq_any question answer_text;
     Ok (Some verdict),
     printed).

(** [process_freeform]: the value, the calls of the judge, the lines printed. *)
Definition process_freeform
    (judge : string -> string -> string -> result PyVal)
    (question : Question) (line : string)
  : result (option (bool * PyVal)) * list call * list string :=
  let answer := get_user_answer line in
  let '(exit_requested, printed) := handle_exit answer in
  if exit_requested then (Ok None, [], printed)
  else
    let '(verdict, calls) := evaluate_freeform judge question answer [] in
    (v ← verdict; Ok (Some v), calls, printed).

End Core_user_answer_processor.

(* ===================================================================== *)
(** * modes/generate_questions_mode.py                                    *)
(* ===================================================================== *)

Module Modes_generate.
Import Py Core_user_answer_processor.


End Modes_generate.

(* ===================================================================== *)
(** * modes/test_mode.py                                                  *)
(* ===================================================================== *)

Module Modes_test.
Import Py Core_selector.

(** [_prompt_number_of_questions]: the bound [max_count] is only shown in
    the prompt. *)
Definition _prompt_number_of_questions (max_count : Z) (line : string)
  : option Z * list string :=
  match int_of_str (strip line) with
  | None => (None, ["Invalid number."%string])
  | Some number_of_questions_for_test =>
      if number_of_questions_for_test <=? 0
      then (None, ["Nothing to do."%string])
      else (Some number_of_questions_for_test, [])
  end.

(** The start of [run_test]: the questions of the session, [None] when the
    function returns before selecting any. *)
Definition select_for_test {A} (rnd : nat -> nat) (active_questions : list A)
    (line : string) : option (result (list A)) :=
  match active_questions with
  | [] => None
  | _ =>
      match fst (_prompt_number_of_questions
                   (Z.of_nat (length active_questions)) line) with
      | None => None
      | Some number_of_questions =>
          Some (random_unique rnd active_questions number_of_questions)
      end
  end.

End Modes_test.

(* ===================================================================== *)
(** * modes/manage_questions_mode.py                                      *)
(* ===================================================================== *)

Module Modes_manage.
Import Py Core_question Core_quiz_manager.





End Modes_manage.

(* ===================================================================== *)
(** * Vocabulary of the properties                                        *)
(* ===================================================================== *)

Module Props.
Import Py Core_question Core_quiz_manager.

(** The ids of a list of records that [int] accepts, a missing id read as 0. *)
Definition parsed_ids (questions : list dict) : list Z :=
  omap (fun question =>
          match py_int (dict_get question "id" (PyInt 0)) with
          | Ok qid => Some qid
          | Raise _ => None
          end) questions.

(** The largest element, 0 for a list with no positive element. *)
Definition max_id_of (ids : list Z) : Z := fold_right Z.max 0 ids.

Definition absent (d : dict) (key : string) : Prop := dict_find d key = None.

(** A field that is missing or that [int] accepts. *)
Definition int_field_ok (d : dict) (key : string) : bool :=
  match dict_find d key with
  | None => true
  | Some v => is_ok (py_int v)
  end.

(** The type tag [from_dict] dispatches on, when the type field is missing,
    falsy or a string. *)
Definition type_tag (d : dict) : result string :=
  py_lower (py_or (dict_get d "type" PyNone) (PyStr "")).

(** The records [from_dict] can load. *)
Definition loadable (d : dict) : bool :=
  match type_tag d with
  | Raise _ => false
  | Ok qtype =>
      int_field_ok d "id" && int_field_ok d "times_shown"
      && int_field_ok d "correct_count" && int_field_ok d "incorrect_count"
      && (negb (String.eqb qtype "multiple-choice")
          || is_ok (py_list (py_or (dict_get d "options" (PyList [])) (PyList []))))
  end.

(** A question whose type tag agrees with its class and is in lower case. *)
Definition well_tagged (q : Question) : Prop :=
  match q with
  | BaseQuestion _ => False
  | MCQQuestion b _ _ _ => type b = "multiple-choice"%string
  | FreeformQuestion b _ =>
      lower (type b) = type b /\ type b <> "multiple-choice"%string
  end.

(** [times_shown == correct_count + incorrect_count] *)
Definition consistent (q : Question) : Prop :=
  times_shown (base_of q) = correct_count (base_of q) + incorrect_count (base_of q).

(** A question with its three counters reset: what [record_result] must
    leave alone. *)
Definition erase_counters (q : Question) : Question :=
  with_base (fun b => mkBase (id b) (topic b) (type b) (question b) (source b)
                             (active b) 0 0 0) q.

(** A question with its id reset: what [add_questions] must leave alone. *)
Definition erase_id (q : Question) : Question :=
  with_base (set_id 0) q.

(** A string stripped on the left is empty or starts with a non-blank. *)
Definition left_clean (s : string) : Prop :=
  match s with
  | EmptyString => True
  | String c _ => is_space c = false
  end.

Definition id_at (h : gmap nat Question) (r : ref) : option Z :=
  (fun q => id (base_of q)) <$> h !! r.

End Props.

(* ===================================================================== *)
(** * Vocabulary of the further properties                                *)
(* ===================================================================== *)

Module More_props.
Import Py Core_question Core_quiz_manager Props.

(** The ids of the stored questions, in the order of the store. *)
Definition stored_ids (w : World) : list Z :=
  List.map (fun q => id (base_of q)) (objects (heap w) (_questions w)).

(** A question with its [active] flag reset: what [toggle_active] must leave
    alone. *)
Definition erase_active (q : Question) : Question :=
  with_base (set_active true) q.

(** All characters of a string are decimal digits. *)
Fixpoint all_digits (s : string) : bool :=
  match s with
  | EmptyString => true
  | String c s' =>
      match digit_of c with Some _ => all_digits s' | None => false end
  end.

(** The elements of the loaded list that [from_dict] can load. *)
Definition loadable_any (v : PyVal) : bool :=
  match v with
  | PyDict d => loadable d
  | _ => false
  end.

End More_props.

(* ===================================================================== *)
(** * The Python fragment on examples                                    *)
(* ===================================================================== *)

Module PyTests.
Import Py.

Example int_of_str_examples :
  int_of_str "5" = Some 5 /\ int_of_str "  -12 " = Some (-12) /\
  int_of_str "1_000" = Some 1000 /\ int_of_str "+007" = Some 7 /\
  int_of_str "not a number" = None /\ int_of_str "" = None /\
  int_of_str "1__0" = None /\ int_of_str "_1" = None /\ int_of_str "1_" = None /\
  int_of_str "- 5" = None /\ int_of_str "5 x" = None /\ int_of_str "3.0" = None.
Proof. repeat split; reflexivity. Qed.

Example str_examples :
  py_str (PyInt (-40)) = "-40"%string /\ py_str PyNone = "None"%string /\
  py_str (PyList [PyStr "a"; PyInt 1; PyBool true]) = "['a', 1, True]"%string /\
  py_str (PyDict [("k"%string, PyNone)]) = "{'k': None}"%string /\
  strip "  Paris  " = "Paris"%string /\ lower "PaRiS" = "paris"%string.
Proof. repeat split; reflexivity. Qed.

End PyTests.

(* ===================================================================== *)
(** * Facts about the Python fragment                                     *)
(* ===================================================================== *)

Module PyFacts.
Import Py Props.

Lemma bind_ok {A B} (m : result A) (k : A -> result B) (b : B) :
  m ≫= k = Ok b -> exists a, m = Ok a /\ k a = Ok b.
Proof.
  destruct m as [a|e]; cbn; intros H.
  - exists a. split; [reflexivity | exact H].
  - discriminate.
Qed.

Lemma lstrip_blank (s : string) : is_blank s = true -> lstrip s = EmptyString.
Proof.
  induction s as [|c s IH]; cbn; [reflexivity|].
  intros H. apply andb_prop in H as [Hc Hs]. rewrite Hc. auto.
Qed.

Lemma strip_blank (s : string) : is_blank s = true -> strip s = EmptyString.
Proof. intros H. unfold strip. rewrite lstrip_blank by assumption. reflexivity. Qed.

Lemma lstrip_left_clean (s : string) : left_clean (lstrip s).
Proof.
  induction s as [|c s IH]; cbn; [exact I|].
  destruct (is_space c) eqn:E; [exact IH | cbn; exact E].
Qed.

Lemma lstrip_of_left_clean (s : string) : left_clean s -> lstrip s = s.
Proof. destruct s as [|c s]; cbn; [reflexivity|]. intros ->. reflexivity. Qed.

Lemma rstrip_left_clean (s : string) : left_clean s -> left_clean (rstrip s).
Proof.
  destruct s as [|c s]; cbn; [exact id|]. intros H.
  destruct (rstrip s); [rewrite H|]; cbn; exact H.
Qed.

Lemma rstrip_cons (c c' : ascii) (s r : string) :
  rstrip s = String c' r -> rstrip (String c s) = String c (String c' r).
Proof. cbn. intros ->. reflexivity. Qed.

Lemma rstrip_idem (s : string) : rstrip (rstrip s) = rstrip s.
Proof.
  induction s as [|c s IH]; cbn; [reflexivity|].
  destruct (rstrip s) as [|c' r] eqn:E.
  - destruct (is_space c) eqn:Ec; cbn; [reflexivity | rewrite Ec; reflexivity].
  - apply rstrip_cons. exact IH.
Qed.

Lemma strip_idem (s : string) : strip (strip s) = strip s.
Proof.
  unfold strip.
  rewrite (lstrip_of_left_clean (rstrip (lstrip s))).
  - apply rstrip_idem.
  - apply rstrip_left_clean, lstrip_left_clean.
Qed.

Lemma dict_get_absent (d : dict) (key : string) (default : PyVal) :
  dict_find d key = None -> dict_get d key default = default.
Proof. unfold dict_get. intros ->. reflexivity. Qed.

End PyFacts.

(* ===================================================================== *)
(** * persistence/file_handler.py: get_next_id                            *)
(* ===================================================================== *)

Module File_handler_facts.
Import Py Props File_handler.

Lemma next_max_parsed (max_id : Z) (question : dict) :
  next_max max_id question =
    match py_int (dict_get question "id" (PyInt 0)) with
    | Ok qid => Z.max max_id qid
    | Raise _ => max_id
    end.
Proof.
  unfold next_max. destruct (py_int _) as [qid|e]; [|reflexivity].
  destruct (Z.gtb_spec qid max_id); lia.
Qed.

Lemma max_id_of_nonneg (ids : list Z) : 0 <= max_id_of ids.
Proof. unfold max_id_of. induction ids as [|z ids IH]; cbn; lia. Qed.

Lemma max_id_of_bound (ids : list Z) (z : Z) : z ∈ ids -> z <= max_id_of ids.
Proof.
  unfold max_id_of. induction ids as [|y ids IH]; intros H.
  - inversion H.
  - apply elem_of_cons in H as [->|H]; cbn; [lia|]. specialize (IH H). lia.
Qed.

Lemma max_id_of_nonpos (ids : list Z) :
  (forall z, z ∈ ids -> z <= 0) -> max_id_of ids = 0.
Proof.
  unfold max_id_of. induction ids as [|y ids IH]; intros H; [reflexivity|].
  cbn. rewrite IH.
  - assert (y <= 0) by (apply H; left). lia.
  - intros z Hz. apply H. right. exact Hz.
Qed.

Lemma parsed_ids_cons (question : dict) (questions : list dict) :
  parsed_ids (question :: questions) =
    match py_int (dict_get question "id" (PyInt 0)) with
    | Ok qid => qid :: parsed_ids questions
    | Raise _ => parsed_ids questions
    end.
Proof.
  unfold parsed_ids. cbn.
  destruct (py_int (dict_get question "id" (PyInt 0))); reflexivity.
Qed.

Lemma fold_next_max (questions : list dict) (max_id : Z) :
  0 <= max_id ->
  fold_left next_max questions max_id
  = Z.max max_id (max_id_of (parsed_ids questions)).
Proof.
  revert max_id. unfold max_id_of.
  induction questions as [|question questions IH]; intros max_id Hpos.
  - cbn. lia.
  - cbn [fold_left]. rewrite next_max_parsed, parsed_ids_cons.
    destruct (py_int (dict_get question "id" (PyInt 0))) as [qid|e].
    + rewrite IH by lia. cbn. lia.
    + rewrite IH by lia. reflexivity.
Qed.

(** The loop of [get_next_id] computes the largest accepted id, 0 at least. *)
Lemma get_next_id_max (questions : list dict) :
  get_next_id questions = 1 + max_id_of (parsed_ids questions).
Proof.
  unfold get_next_id. rewrite fold_next_max by lia.
  pose proof (max_id_of_nonneg (parsed_ids questions)). lia.
Qed.

(** C2. [get_next_id] is one more than the largest stored id that [int]
    accepts, ids that [int] refuses being skipped and the result being 1
    when no accepted id is positive; it exceeds every accepted id; and it
    takes the four values the tests list. *)
Theorem get_next_id_spec (questions : list dict) :
  get_next_id questions = 1 + max_id_of (parsed_ids questions)
  /\ (forall qid, qid ∈ parsed_ids questions -> qid < get_next_id questions)
  /\ ((forall qid, qid ∈ parsed_ids questions -> qid <= 0) ->
      get_next_id questions = 1)
  /\ get_next_id [] = 1
  /\ get_next_id [ [("id"%string, PyInt 1)]; [("id"%string, PyInt 3)];
                   [("id"%string, PyInt 2)] ] = 4
  /\ get_next_id [ [("id"%string, PyStr "5")]; [("id"%string, PyNone)];
                   [("id"%string, PyStr "not a number")] ] = 6
  /\ get_next_id [ [("id"%string, PyInt (-1))]; [("id"%string, PyInt 0)];
                   [("id"%string, PyInt 2)] ] = 3.
Proof.
  pose proof (get_next_id_max questions) as E.
  split; [exact E|]. split; [|split].
  - intros qid H. apply max_id_of_bound in H. lia.
  - intros H. rewrite E, max_id_of_nonpos by exact H. reflexivity.
  - repeat split; reflexivity.
Qed.

End File_handler_facts.

(* ===================================================================== *)
(** * core/evaluator.py: evaluate_mcq                                     *)
(* ===================================================================== *)

Module Evaluate_mcq_facts.
Import Py Props PyFacts Core_question Core_evaluator.

(** C10. When the stored answer of a multiple-choice question is empty or
    blank, every empty or blank choice is judged correct. *)
Theorem evaluate_mcq_blank_is_correct
    (b : Base) (options : list PyVal) (correct_answer : string)
    (explanation : PyVal) (user_choice : string) :
  is_blank correct_answer = true ->
  is_blank user_choice = true ->
  evaluate_mcq (MCQQuestion b options correct_answer explanation) user_choice
  = Ok (true, py_or explanation (PyStr "")).
Proof.
  intros Hc Hu. unfold evaluate_mcq.
  rewrite (strip_blank _ Hc), (strip_blank _ Hu). reflexivity.
Qed.

Lemma evaluate_mcq_blank_witness :
  evaluate_mcq
    (MCQQuestion (mkBase 7 "geo" "multiple-choice" "Capital?" "LLM" true 0 0 0)
                 [PyStr "Paris"; PyStr "Rome"] "  " PyNone) ""
  = Ok (true, PyStr "").
Proof.
  exact (evaluate_mcq_blank_is_correct
           (mkBase 7 "geo" "multiple-choice" "Capital?" "LLM" true 0 0 0)
           [PyStr "Paris"; PyStr "Rome"] "  " PyNone "" eq_refl eq_refl).
Defined.

End Evaluate_mcq_facts.

(* ===================================================================== *)
(** * core/quiz_manager.py: record_result and add_questions               *)
(* ===================================================================== *)

Module Quiz_manager_facts.
Import Py Props Core_question File_handler File_handler_facts Core_quiz_manager.

Lemma with_base_base_of (f : Base -> Base) (q : Question) :
  base_of (with_base f q) = f (base_of q).
Proof. destruct q; reflexivity. Qed.

Lemma erase_counters_bump (is_correct : bool) (q : Question) :
  erase_counters (with_base (bump is_correct) q) = erase_counters q.
Proof. destruct q, is_correct; reflexivity. Qed.

Lemma erase_id_set_id (next_id : Z) (q : Question) :
  erase_id (with_base (set_id next_id) q) = erase_id q.
Proof. destruct q; reflexivity. Qed.

(** C7. [record_result] adds one to [times_shown], adds one to exactly one
    of [correct_count] (a correct answer) and [incorrect_count] (an incorrect
    one), leaves the other counter, the other fields and the other objects
    alone, and so keeps [times_shown == correct_count + incorrect_count];
    the collection it persists is the updated one. *)
Theorem record_result_counts
    (w : World) (question : ref) (q : Question) (is_correct : bool) :
  heap w !! question = Some q ->
  exists q',
    heap (record_result w question is_correct) !! question = Some q'
    /\ times_shown (base_of q') = times_shown (base_of q) + 1
    /\ correct_count (base_of q')
       = correct_count (base_of q) + (if is_correct then 1 else 0)
    /\ incorrect_count (base_of q')
       = incorrect_count (base_of q) + (if is_correct then 0 else 1)
    /\ erase_counters q' = erase_counters q
    /\ (consistent q -> consistent q')
    /\ (forall r, r <> question ->
          heap (record_result w question is_correct) !! r = heap w !! r)
    /\ _questions (record_result w question is_correct) = _questions w
    /\ saved (record_result w question is_correct)
       = List.map as_dict
           (objects (heap (record_result w question is_correct)) (_questions w)).
Proof.
  intros Hq. exists (with_base (bump is_correct) q).
  unfold record_result, _persist. cbn [heap _questions saved].
  split; [rewrite lookup_alter_eq, Hq; reflexivity|].
  rewrite with_base_base_of.
  repeat split.
  - destruct is_correct; reflexivity.
  - destruct is_correct; cbn; lia.
  - destruct is_correct; cbn; lia.
  - apply erase_counters_bump.
  - unfold consistent. rewrite with_base_base_of.
    destruct is_correct; cbn; lia.
  - intros r Hr. apply lookup_alter_ne. congruence.
Qed.

Lemma record_result_counts_witness :
  exists q',
    heap (record_result
            (mkWorld {[ 0%nat := FreeformQuestion
                          (mkBase 1 "t" "freeform" "q?" "LLM" true 3 2 1) "a" ]}
                     [0%nat] []) 0%nat true) !! 0%nat = Some q'
    /\ times_shown (base_of q') = 4
    /\ consistent q'.
Proof.
  assert (Hq : heap (mkWorld {[ 0%nat := FreeformQuestion
                            (mkBase 1 "t" "freeform" "q?" "LLM" true 3 2 1) "a" ]}
                       [0%nat] []) !! 0%nat
               = Some (FreeformQuestion
                         (mkBase 1 "t" "freeform" "q?" "LLM" true 3 2 1) "a"))
    by (vm_compute; reflexivity).
  destruct (record_result_counts _ _ _ true Hq)
    as (q' & H1 & H2 & _ & _ & _ & H6 & _).
  exists q'. split; [exact H1|]. split; [exact H2|]. apply H6. reflexivity.
Defined.

(** ** add_questions *)

Lemma id_of_as_dict (q : Question) :
  dict_get (as_dict q) "id" (PyInt 0) = PyInt (id (base_of q)).
Proof. destruct q as [b|b o c e|b r]; try reflexivity. destruct e; reflexivity. Qed.

Lemma parsed_ids_as_dict (qs : list Question) :
  parsed_ids (List.map as_dict qs) = List.map (fun q => id (base_of q)) qs.
Proof.
  induction qs as [|q qs IH]; [reflexivity|].
  cbn [List.map]. rewrite parsed_ids_cons, id_of_as_dict. cbn. rewrite IH. reflexivity.
Qed.

Lemma assign_ids_spec (new_questions : list ref) :
  forall (h : gmap nat Question) (questions : list ref) (next_id : Z),
    (assign_ids h questions next_id new_questions).2 = questions ++ new_questions
    /\ (forall r, r ∉ new_questions ->
          (assign_ids h questions next_id new_questions).1 !! r = h !! r)
    /\ (NoDup new_questions ->
        forall (i : nat) r, new_questions !! i = Some r ->
          (assign_ids h questions next_id new_questions).1 !! r
          = with_base (set_id (next_id + Z.of_nat i)) <$> h !! r).
Proof.
  induction new_questions as [|r0 rest IH]; intros h questions next_id.
  - cbn. rewrite app_nil_r. split; [reflexivity|]. split.
    + intros; reflexivity.
    + intros _ i r Hi. discriminate.
  - cbn [assign_ids].
    destruct (IH (alter (with_base (set_id next_id)) r0 h)
                 (questions ++ [r0]) (next_id + 1)) as (Hq & Hframe & Hnew).
    split; [rewrite Hq, <- app_assoc; reflexivity|]. split.
    + intros r Hr. apply not_elem_of_cons in Hr as [Hne Hr].
      rewrite Hframe by exact Hr. apply lookup_alter_ne. congruence.
    + intros Hnd i r Hi. apply NoDup_cons in Hnd as [Hr0 Hnd].
      destruct i as [|i]; cbn in Hi.
      * injection Hi as <-. rewrite Hframe by exact Hr0.
        rewrite lookup_alter_eq. replace (next_id + Z.of_nat 0) with next_id by lia.
        reflexivity.
      * rewrite (Hnew Hnd i r Hi).
        assert (r <> r0).
        { intros ->. apply Hr0. eapply list_elem_of_lookup_2. exact Hi. }
        rewrite lookup_alter_ne by congruence.
        replace (next_id + 1 + Z.of_nat i) with (next_id + Z.of_nat (S i)) by lia.
        reflexivity.
Qed.

(** C9. On a store whose questions have largest valid id [m], [add_questions]
    gives k new questions (k distinct objects, none of them in the store) the
    ids m+1, ..., m+k in input order, appends them to the collection in input
    order, changes nothing else of them, and leaves every other object, the
    existing questions among them, unchanged. *)
Theorem add_questions_consecutive_ids (w : World) (new_questions : list ref) :
  NoDup new_questions ->
  (forall r, r ∈ new_questions -> r ∉ _questions w) ->
  (forall r, r ∈ new_questions -> is_Some (heap w !! r)) ->
  _questions (add_questions w new_questions) = _questions w ++ new_questions
  /\ (forall (i : nat) r, new_questions !! i = Some r ->
        id_at (heap (add_questions w new_questions)) r
        = Some (max_id_of (List.map (fun q => id (base_of q))
                             (objects (heap w) (_questions w)))
                + 1 + Z.of_nat i))
  /\ (forall r, r ∈ new_questions ->
        erase_id <$> heap (add_questions w new_questions) !! r
        = erase_id <$> heap w !! r)
  /\ (forall r, r ∈ _questions w ->
        heap (add_questions w new_questions) !! r = heap w !! r)
  /\ (forall r, r ∉ new_questions ->
        heap (add_questions w new_questions) !! r = heap w !! r).
Proof.
  intros Hnd Hfresh Halloc.
  unfold add_questions.
  pose proof (get_next_id_max (List.map as_dict (objects (heap w) (_questions w))))
    as Hnext.
  rewrite parsed_ids_as_dict in Hnext.
  destruct (assign_ids_spec new_questions (heap w) (_questions w)
              (get_next_id (List.map as_dict (objects (heap w) (_questions w)))))
    as (Hq & Hframe & Hnew).
  destruct (assign_ids _ _ _ _) as [h' questions'] eqn:E.
  cbn [fst snd] in Hq, Hframe, Hnew. cbn [_persist heap _questions saved].
  split; [exact Hq|]. split; [|split; [|split]].
  - intros i r Hi. unfold id_at. rewrite (Hnew Hnd i r Hi).
    destruct (Halloc r) as [q Hr]; [eapply list_elem_of_lookup_2; exact Hi|].
    rewrite Hr. cbn. rewrite with_base_base_of. cbn. f_equal. lia.
  - intros r Hr. apply list_elem_of_lookup_1 in Hr as [i Hi].
    rewrite (Hnew Hnd i r Hi).
    destruct (heap w !! r) as [q|]; cbn; [|reflexivity].
    rewrite erase_id_set_id. reflexivity.
  - intros r Hr. apply Hframe. intros Hin. exact (Hfresh r Hin Hr).
  - exact Hframe.
Qed.

Lemma add_questions_consecutive_ids_witness :
  let w := mkWorld
             {[ 0%nat := FreeformQuestion (mkBase 1 "t" "freeform" "a?" "LLM" true 0 0 0) "a";
                1%nat := FreeformQuestion (mkBase 3 "t" "freeform" "b?" "LLM" true 0 0 0) "b";
                2%nat := FreeformQuestion (mkBase 2 "t" "freeform" "c?" "LLM" true 0 0 0) "c";
                3%nat := FreeformQuestion (mkBase 0 "t" "freeform" "d?" "LLM" true 0 0 0) "d";
                4%nat := MCQQuestion (mkBase 0 "t" "multiple-choice" "e?" "LLM" true 0 0 0)
                           [PyStr "x"; PyStr "y"] "x" PyNone;
                5%nat := FreeformQuestion (mkBase 0 "t" "freeform" "f?" "LLM" true 0 0 0) "f" ]}
             [0; 1; 2]%nat [] in
  let w' := add_questions w [3; 4; 5]%nat in
  _questions w' = [0; 1; 2; 3; 4; 5]%nat
  /\ id_at (heap w') 3%nat = Some 4
  /\ id_at (heap w') 4%nat = Some 5
  /\ id_at (heap w') 5%nat = Some 6.
Proof.
  intros w w'.
  assert (Hnd : NoDup [3; 4; 5]%nat)
    by (apply (bool_decide_unpack _); vm_compute; exact I).
  assert (Hfresh : forall r : ref, r ∈ [3; 4; 5]%nat -> r ∉ _questions w)
    by (intros r Hr Hin; cbn in Hin;
        repeat (apply elem_of_cons in Hr as [->|Hr]); [ | | | inversion Hr];
        repeat (apply elem_of_cons in Hin as [Hin|Hin]; [discriminate|]);
        inversion Hin).
  assert (Halloc : forall r : ref, r ∈ [3; 4; 5]%nat -> is_Some (heap w !! r)).
  { intros r Hr. repeat (apply elem_of_cons in Hr as [->|Hr]);
      [vm_compute; eexists; reflexivity ..|]. inversion Hr. }
  destruct (add_questions_consecutive_ids w [3; 4; 5]%nat Hnd Hfresh Halloc)
    as (Hq & Hid & _).
  split; [exact Hq|].
  split; [exact (Hid 0%nat 3%nat eq_refl)|].
  split; [exact (Hid 1%nat 4%nat eq_refl) | exact (Hid 2%nat 5%nat eq_refl)].
Defined.

(** The hypothesis that the new questions are distinct objects is needed: an
    object listed twice ends with the id of its last position. *)
Example add_questions_shared_object :
  let w := mkWorld
             {[ 0%nat := FreeformQuestion (mkBase 0 "t" "freeform" "d?" "LLM" true 0 0 0) "d" ]}
             [] [] in
  id_at (heap (add_questions w [0; 0]%nat)) 0%nat = Some 2.
Proof. vm_compute. reflexivity. Qed.

End Quiz_manager_facts.

(* ===================================================================== *)
(** * core/selector.py                                                    *)
(* ===================================================================== *)

Module Selector_facts.
Import Py Props Core_question Core_selector.



(** ** Binary search *)

Lemma midpoint_bounds (lo hi : nat) :
  (lo < hi -> lo <= (lo + hi) / 2 /\ (lo + hi) / 2 < hi)%nat.
Proof.
  intros H. pose proof (Nat.div_mod_eq (lo + hi) 2).
  pose proof (Nat.mod_upper_bound (lo + hi) 2). lia.
Qed.


(** The bound [hi - lo] on the number of turns is enough: the loop has ended
    by then, and more turns change nothing. *)
Lemma bisect_loop_stable (a : list Q) (x : Q) (t1 : nat) :
  forall (t2 lo hi : nat), (hi - lo <= t1)%nat -> (hi - lo <= t2)%nat ->
    bisect_loop t1 a x lo hi = bisect_loop t2 a x lo hi.
Proof.
  induction t1 as [|t1 IH]; intros t2 lo hi H1 H2.
  - destruct t2 as [|t2]; cbn [bisect_loop]; [reflexivity|].
    destruct (Nat.ltb_spec lo hi); [lia | reflexivity].
  - destruct t2 as [|t2]; cbn [bisect_loop].
    + destruct (Nat.ltb_spec lo hi); [lia | reflexivity].
    + destruct (Nat.ltb_spec lo hi) as [Hlt|]; [|reflexivity].
      destruct (midpoint_bounds lo hi Hlt) as [Hlo Hhi].
      destruct (Qltb x (nth ((lo + hi) / 2) a 0%Q)); apply IH; lia.
Qed.

Lemma bisect_enough (a : list Q) (x : Q) (turns lo hi : nat) :
  (hi - lo <= turns)%nat -> bisect_loop turns a x lo hi = bisect a x lo hi.
Proof. intros H. unfold bisect. apply bisect_loop_stable; lia. Qed.


(** ** Cumulative weights *)





(** ** [random.choices] *)


(** ** [weighted_choice] *)



(** ** [random.sample] *)

(** Putting [y] in the place of [x] and [x] in front is a rearrangement of
    [y] put in front. *)
Lemma insert_swap_perm {A} (t : list A) (j : nat) (x y : A) :
  t !! j = Some x -> x :: <[j := y]> t ≡ₚ y :: t.
Proof.
  intros Hj.
  rewrite insert_take_drop by (eapply lookup_lt_Some; exact Hj).
  rewrite <- (take_drop_middle t j x Hj) at 3.
  rewrite <- !Permutation_middle. apply perm_swap.
Qed.

(** One turn of the pool selection: the drawn element and the shortened pool
    rearrange the pool before the turn. *)
Lemma pool_turn_perm {A} (pool : list A) (m j : nat) (x y : A) :
  (j <= m)%nat -> pool !! j = Some x -> pool !! m = Some y ->
  x :: take m (<[j := y]> pool) ≡ₚ take (S m) pool.
Proof.
  intros Hjm Hx Hy. rewrite (take_S_r pool m y Hy).
  destruct (decide (j = m)) as [->|Hne].
  - rewrite take_insert_ge by lia. assert (x = y) as -> by congruence.
    apply Permutation_cons_append.
  - rewrite take_insert_lt by lia.
    rewrite insert_swap_perm by (rewrite lookup_take_lt by lia; exact Hx).
    apply Permutation_cons_append.
Qed.

Lemma sample_loop_perm {A} (rnd : nat -> nat) (n k : nat) :
  forall (pool : list A) (i : nat),
    length pool = n -> (i + k <= n)%nat ->
    exists selected rest,
      sample_loop rnd pool n i k = Ok selected
      /\ length selected = k
      /\ selected ++ rest ≡ₚ take (n - i) pool.
Proof.
  induction k as [|k IH]; intros pool i Hlen Hik.
  - exists [], (take (n - i) pool). repeat split; reflexivity.
  - cbn [sample_loop].
    assert (Hj : (rnd i mod (n - i) < n - i)%nat) by (apply Nat.mod_upper_bound; lia).
    revert Hj. generalize (rnd i mod (n - i))%nat as j. intros j Hj.
    destruct (lookup_lt_is_Some_2 pool j) as [x Hx]; [lia|].
    destruct (lookup_lt_is_Some_2 pool (n - i - 1)) as [y Hy]; [lia|].
    rewrite Hx, Hy.
    destruct (IH (<[j := y]> pool) (S i)) as (selected & rest & Hs & Hl & Hp);
      [rewrite length_insert; exact Hlen | lia |].
    exists (x :: selected), rest. rewrite Hs. cbn. split; [reflexivity|].
    split; [rewrite Hl; reflexivity|].
    rewrite Hp. replace (n - i)%nat with (S (n - i - 1)) by lia.
    replace (n - S i)%nat with (n - i - 1)%nat by lia.
    apply pool_turn_perm; [lia | exact Hx | exact Hy].
Qed.

(** C8. [random_unique] returns min(n, len(questions)) elements taken from
    distinct positions of [questions] (the selection completed by the
    elements left out rearranges [questions]), whatever the random draws; it
    returns the empty list when n <= 0 and a rearrangement of all of
    [questions] when n >= len(questions). *)
Theorem random_unique_spec {A} (rnd : nat -> nat) (questions : list A) (n : Z) :
  exists selected rest : list A,
    random_unique rnd questions n = Ok selected
    /\ Z.of_nat (length selected) = Z.max 0 (Z.min n (Z.of_nat (length questions)))
    /\ selected ++ rest ≡ₚ questions
    /\ (NoDup questions -> NoDup selected)
    /\ (n <= 0 -> selected = [])
    /\ (Z.of_nat (length questions) <= n -> selected ≡ₚ questions).
Proof.
  unfold random_unique. destruct (Z.leb_spec n 0) as [Hn|Hn].
  - exists [], questions. cbn [length app]. repeat split; try reflexivity.
    + lia.
    + intros _. constructor.
    + intros H. assert (length questions = 0%nat) as ->%nil_length_inv by lia.
      reflexivity.
  - unfold sample.
    assert (Hk : (0 <=? Z.min n (Z.of_nat (length questions)))
                 && (Z.min n (Z.of_nat (length questions)) <=? Z.of_nat (length questions))
                 = true).
    { apply andb_true_intro. split; [apply Z.leb_le | apply Z.leb_le]; lia. }
    rewrite Hk. cbn [negb].
    destruct (sample_loop_perm rnd (length questions)
                (Z.to_nat (Z.min n (Z.of_nat (length questions)))) questions 0%nat)
      as (selected & rest & Hs & Hl & Hp); [reflexivity | lia |].
    rewrite Nat.sub_0_r, firstn_all in Hp.
    exists selected, rest. split; [exact Hs|]. split; [rewrite Hl; lia|].
    split; [exact Hp|]. split; [|split].
    + intros Hnd. rewrite <- Hp in Hnd. apply NoDup_app in Hnd as [H _]. exact H.
    + lia.
    + intros Hall.
      assert (Hrest : length rest = 0%nat).
      { apply Permutation_length in Hp. rewrite length_app, Hl in Hp. lia. }
      apply nil_length_inv in Hrest. subst rest. rewrite app_nil_r in Hp. exact Hp.
Qed.

Example random_unique_example :
  random_unique (fun i => (7 * i + 3)%nat) [10; 20; 30; 40; 50] 3 = Ok [40; 30; 50]
  /\ random_unique (fun i => (7 * i + 3)%nat) [10; 20; 30] 8 = Ok [10; 30; 20]
  /\ random_unique (fun i => i) [10; 20; 30] (-2) = Ok [].
Proof. repeat split; reflexivity. Qed.

End Selector_facts.

(* ===================================================================== *)
(** * core/question.py: as_dict and from_dict                             *)
(* ===================================================================== *)

Module Question_facts.
Import Py Props PyFacts Core_question.

Lemma int_field_ok_get (d : dict) (key : string) :
  is_ok (py_int (dict_get d key (PyInt 0))) = int_field_ok d key.
Proof. unfold int_field_ok, dict_get. destruct (dict_find d key); reflexivity. Qed.


(** [from_dict] returns exactly on the loadable records. *)
Lemma from_dict_ok_iff_loadable (d : dict) : is_ok (from_dict d) = loadable d.
Proof.
  unfold from_dict, loadable, type_tag.
  rewrite <- !int_field_ok_get.
  destruct (py_lower _) as [qtype|e]; cbn; [|reflexivity].
  destruct (py_int (dict_get d "id" (PyInt 0))); cbn; [|reflexivity].
  destruct (py_int (dict_get d "times_shown" (PyInt 0))); cbn; [|reflexivity].
  destruct (py_int (dict_get d "correct_count" (PyInt 0))); cbn; [|reflexivity].
  destruct (py_int (dict_get d "incorrect_count" (PyInt 0))); cbn; [|reflexivity].
  destruct (String.eqb qtype "multiple-choice"); cbn; [|reflexivity].
  destruct (py_list _); reflexivity.
Qed.

(** What [from_dict] returns, field by field. *)
Lemma from_dict_fields (d : dict) (q : Question) :
  from_dict d = Ok q ->
  exists qtype id_ times_shown_ correct_count_ incorrect_count_,
    type_tag d = Ok qtype
    /\ py_int (dict_get d "id" (PyInt 0)) = Ok id_
    /\ py_int (dict_get d "times_shown" (PyInt 0)) = Ok times_shown_
    /\ py_int (dict_get d "correct_count" (PyInt 0)) = Ok correct_count_
    /\ py_int (dict_get d "incorrect_count" (PyInt 0)) = Ok incorrect_count_
    /\ base_of q
       = mkBase id_ (py_str (dict_get d "topic" (PyStr ""))) qtype
                (py_str (dict_get d "question" (PyStr "")))
                (py_str (dict_get d "source" (PyStr "LLM")))
                (py_bool (dict_get d "active" (PyBool true)))
                times_shown_ correct_count_ incorrect_count_
    /\ ((qtype = "multiple-choice"%string
         /\ exists options_,
              py_list (py_or (dict_get d "options" (PyList [])) (PyList []))
                = Ok options_
              /\ q = MCQQuestion (base_of q) options_
                       (py_str (dict_get d "correct_answer" (PyStr "")))
                       (dict_get d "explanation" PyNone))
        \/ (qtype <> "multiple-choice"%string
            /\ q = FreeformQuestion (base_of q)
                     (py_str (dict_get d "reference_answer" (PyStr ""))))).
Proof.
  unfold from_dict, type_tag. intros H.
  apply bind_ok in H as (qtype & Ht & H).
  apply bind_ok in H as (id_ & Hi & H).
  apply bind_ok in H as (ts & Hts & H).
  apply bind_ok in H as (cc & Hcc & H).
  apply bind_ok in H as (ic & Hic & H).
  exists qtype, id_, ts, cc, ic. repeat (split; [assumption|]).
  destruct (String.eqb_spec qtype "multiple-choice") as [Heq|Hne].
  - apply bind_ok in H as (options_ & Ho & H). injection H as <-.
    split; [reflexivity|]. left. split; [exact Heq|].
    exists options_. split; [exact Ho | reflexivity].
  - injection H as <-. split; [reflexivity|]. right. split; [exact Hne | reflexivity].
Qed.

Lemma type_tag_absent (d : dict) (qtype : string) :
  absent d "type" -> type_tag d = Ok qtype -> qtype = EmptyString.
Proof.
  unfold type_tag. intros H. rewrite dict_get_absent by exact H. cbn. congruence.
Qed.

Lemma type_tag_str (d : dict) (t qtype : string) :
  dict_find d "type" = Some (PyStr t) -> type_tag d = Ok qtype -> qtype = lower t.
Proof.
  unfold type_tag, dict_get. intros ->. destruct t; cbn; congruence.
Qed.



(** The claim C5 as it stands fails: a type tag that is not the literal
    "multiple-choice" but equals it up to letter case also builds an
    [MCQQuestion]. *)
Lemma from_dict_mcq_any_letter_case :
  from_dict [("type"%string, PyStr "Multiple-Choice")]
  = Ok (MCQQuestion (mkBase 0 "" "multiple-choice" "" "LLM" true 0 0 0) [] "" PyNone)
  /\ PyStr "Multiple-Choice" <> PyStr "multiple-choice".
Proof. split; [reflexivity | discriminate]. Qed.

(** C5, amended. Whenever [from_dict] returns, it has built an
    [MCQQuestion] exactly when the type field in lower case is
    "multiple-choice", and a [FreeformQuestion] for every other type value,
    a missing or unrecognized one included; the question carries the tag in
    lower case. *)
Theorem from_dict_dispatch (d : dict) (q : Question) :
  from_dict d = Ok q ->
  exists qtype : string,
    type_tag d = Ok qtype
    /\ type (base_of q) = qtype
    /\ (forall t, dict_find d "type" = Some (PyStr t) -> qtype = lower t)
    /\ (absent d "type" -> qtype = EmptyString)
    /\ (is_mcq q = true <-> qtype = "multiple-choice"%string)
    /\ (is_freeform q = true <-> qtype <> "multiple-choice"%string).
Proof.
  intros H.
  destruct (from_dict_fields d q H)
    as (qtype & id_ & ts & cc & ic & Ht & _ & _ & _ & _ & Hb & Hq).
  exists qtype. split; [exact Ht|]. split; [rewrite Hb; reflexivity|].
  split; [intros t Hf; exact (type_tag_str d t _ Hf Ht)|].
  split; [intros Ha; exact (type_tag_absent d _ Ha Ht)|].
  destruct Hq as [(Heq & options_ & _ & ->) | (Hne & ->)]; cbn.
  - split; split; intros; congruence.
  - split; split; intros; congruence.
Qed.

Lemma from_dict_dispatch_witness :
  exists qtype : string,
    type_tag [("type"%string, PyStr "mcq")] = Ok qtype
    /\ qtype = "mcq"%string
    /\ is_freeform (FreeformQuestion (mkBase 0 "" "mcq" "" "LLM" true 0 0 0) "") = true
    /\ qtype <> "multiple-choice"%string.
Proof.
  destruct (from_dict_dispatch [("type"%string, PyStr "mcq")]
              (FreeformQuestion (mkBase 0 "" "mcq" "" "LLM" true 0 0 0) "") eq_refl)
    as (qtype & Ht & _ & Hl & _ & _ & Hf).
  exists qtype. split; [exact Ht|]. split; [exact (Hl "mcq"%string eq_refl)|].
  split; [reflexivity|]. apply Hf. reflexivity.
Defined.

(** ** Round trip *)

Lemma py_or_str (s : string) : py_or (PyStr s) (PyStr "") = PyStr s.
Proof. destruct s; reflexivity. Qed.

Lemma py_list_or_list (l : list PyVal) :
  py_list (py_or (PyList l) (PyList [])) = Ok l.
Proof. destruct l; reflexivity. Qed.

(** [from_dict] on the mapping [as_dict] makes of a freeform question. *)
Lemma from_dict_as_dict_freeform (b : Base) (reference_answer : string) :
  from_dict (as_dict (FreeformQuestion b reference_answer))
  = if String.eqb (lower (type b)) "multiple-choice"
    then Ok (MCQQuestion
               (mkBase (id b) (topic b) (lower (type b)) (question b) (source b)
                       (active b) (times_shown b) (correct_count b)
                       (incorrect_count b)) [] "" PyNone)
    else Ok (FreeformQuestion
               (mkBase (id b) (topic b) (lower (type b)) (question b) (source b)
                       (active b) (times_shown b) (correct_count b)
                       (incorrect_count b)) reference_answer).
Proof.
  unfold from_dict, as_dict, base_as_dict.
  cbn -[lower py_or py_list]. rewrite py_or_str. cbn -[lower py_or py_list].
  destruct (String.eqb (lower (type b)) "multiple-choice"); reflexivity.
Qed.

(** [from_dict] on the mapping [as_dict] makes of a multiple-choice question. *)
Lemma from_dict_as_dict_mcq (b : Base) (options : list PyVal)
    (correct_answer : string) (explanation : PyVal) :
  from_dict (as_dict (MCQQuestion b options correct_answer explanation))
  = if String.eqb (lower (type b)) "multiple-choice"
    then Ok (MCQQuestion
               (mkBase (id b) (topic b) (lower (type b)) (question b) (source b)
                       (active b) (times_shown b) (correct_count b)
                       (incorrect_count b)) options correct_answer explanation)
    else Ok (FreeformQuestion
               (mkBase (id b) (topic b) (lower (type b)) (question b) (source b)
                       (active b) (times_shown b) (correct_count b)
                       (incorrect_count b)) "").
Proof.
  unfold from_dict, as_dict, base_as_dict.
  destruct explanation; cbn -[lower py_or py_list];
    rewrite py_or_str; cbn -[lower py_or py_list];
    (destruct (String.eqb (lower (type b)) "multiple-choice");
     [rewrite py_list_or_list|]; reflexivity).
Qed.





End Question_facts.

(* ===================================================================== *)
(** * core/evaluator.py: evaluate_freeform                                *)
(* ===================================================================== *)

Module Evaluate_freeform_facts.
Import Py Props PyFacts Question_facts Core_question Llm_client Core_evaluator.

Lemma lstrip_not_blank (s : string) :
  is_blank s = false ->
  exists c r, lstrip s = String c r /\ is_space c = false.
Proof.
  induction s as [|c s IH]; cbn; [discriminate|].
  destruct (is_space c) eqn:E; cbn; intros H.
  - exact (IH H).
  - exists c, s. split; [reflexivity | exact E].
Qed.

Lemma strip_not_blank (s : string) :
  is_blank s = false -> is_empty (strip s) = false.
Proof.
  intros H. destruct (lstrip_not_blank s H) as (c & r & E & Hc).
  unfold strip. rewrite E. cbn. destruct (rstrip r); [rewrite Hc|]; reflexivity.
Qed.

(** [evaluate_freeform] on a freeform question, one step at a time. *)
Lemma evaluate_freeform_unfold
    (judge : string -> string -> string -> result PyVal)
    (b : Base) (reference_answer user_answer : string) (calls : list call) :
  evaluate_freeform judge (FreeformQuestion b reference_answer) user_answer calls
  = if is_empty (strip user_answer)
    then (Ok (false, PyStr "The question was not answered"), calls)
    else (judge (question b) reference_answer user_answer ≫= read_judgment,
          calls ++ [(question b, reference_answer, user_answer)]).
Proof.
  unfold evaluate_freeform, mbind, eff_mbind, eff_bind, eff_lift, mret,
    eff_mret, eff_ret, call_judge.
  rewrite py_or_str. cbn [py_strip].
  destruct (is_empty (strip user_answer)); [reflexivity|].
  cbn [freeform_attrs fst snd].
  destruct (judge (question b) reference_answer user_answer); reflexivity.
Qed.

(** An error-shaped result: the message, "Unknown" when there is none. *)
Lemma read_judgment_error (d e : dict) :
  dict_find d "error" = Some (PyDict e) ->
  read_judgment (PyDict d)
  = Ok (false,
        PyStr ("LLM error: " ++ py_str (dict_get e "message" (PyStr "Unknown")))).
Proof. intros H. unfold read_judgment. rewrite H. reflexivity. Qed.

(** A normal result whose judgment is a string. *)
Lemma read_judgment_normal (d : dict) (judgment : string) :
  dict_find d "error" = None ->
  dict_find d "judgment" = Some (PyStr judgment) ->
  read_judgment (PyDict d)
  = Ok (String.eqb (lower (strip judgment)) "correct",
        py_or (dict_get d "explanation" PyNone) (PyStr "")).
Proof.
  intros He Hj. unfold read_judgment, dict_get. rewrite He, Hj, py_or_str.
  reflexivity.
Qed.

(** The results of [judge_freeform]: a mapping with an error, or a judgment
    and an explanation, both strings without blanks around them. *)
Lemma judge_freeform_shape (client : service)
    (question reference_answer user_answer : string) (r : PyVal) :
  judge_freeform client question reference_answer user_answer = Ok r ->
  (exists d, r = PyDict d /\ dict_has d "error" = true)
  \/ (exists judgment explanation,
        r = PyDict [ ("judgment"%string, PyStr judgment);
                     ("explanation"%string, PyStr explanation) ]
        /\ strip judgment = judgment /\ strip explanation = explanation).
Proof.
  unfold judge_freeform.
  destruct (render_template client question reference_answer user_answer)
    as [prompt | [type_name message]].
  - destruct (dict_has (complete client prompt) "error") eqn:E.
    + intros [= <-]. left. exists (complete client prompt). split; [reflexivity | exact E].
    + intros H. apply bind_ok in H as (j & Hj & H).
      apply bind_ok in H as (x & Hx & H). injection H as <-.
      right. exists j, x. split; [reflexivity|].
      unfold py_strip in Hj, Hx.
      destruct (py_or (dict_get _ "judgment" _) _); try discriminate.
      destruct (py_or (dict_get _ "explanation" _) _); try discriminate.
      injection Hj as <-. injection Hx as <-. split; apply strip_idem.
  - intros [= <-]. left. exists (error_dict type_name message). split; reflexivity.
Qed.

(** C6. On an empty or blank answer [evaluate_freeform] returns
    (false, "The question was not answered") and the judge is not called.
    Otherwise the judge is called once, and on its result: an error-shaped
    one gives (false, "LLM error: " + message), the message being "Unknown"
    when the error carries none; a normal one gives is_correct exactly when
    the judgment field in lower case is "correct", with the explanation
    field passed on, the empty string standing for a missing one. *)
Theorem evaluate_freeform_spec (client : service) (b : Base)
    (reference_answer user_answer : string) :
  (is_blank user_answer = true ->
     evaluate_freeform_with client (FreeformQuestion b reference_answer) user_answer
     = (Ok (false, PyStr "The question was not answered"), []))
  /\ (is_blank user_answer = false ->
      forall r : PyVal,
        judge_freeform client (question b) reference_answer user_answer = Ok r ->
        (evaluate_freeform_with client (FreeformQuestion b reference_answer) user_answer).2
          = [(question b, reference_answer, user_answer)]
        /\ (forall d e : dict,
              r = PyDict d -> dict_find d "error" = Some (PyDict e) ->
              (evaluate_freeform_with client (FreeformQuestion b reference_answer)
                 user_answer).1
              = Ok (false,
                    PyStr ("LLM error: "
                           ++ py_str (dict_get e "message" (PyStr "Unknown")))))
        /\ (forall d : dict,
              r = PyDict d -> dict_find d "error" = None ->
              exists judgment : string,
                dict_find d "judgment" = Some (PyStr judgment)
                /\ (evaluate_freeform_with client
                      (FreeformQuestion b reference_answer) user_answer).1
                   = Ok (String.eqb (lower judgment) "correct",
                         py_or (dict_get d "explanation" PyNone) (PyStr "")))).
Proof.
  unfold evaluate_freeform_with. rewrite evaluate_freeform_unfold. split.
  - intros H. rewrite (strip_blank _ H). reflexivity.
  - intros H r Hr. rewrite (strip_not_blank _ H), Hr.
    unfold mbind, result_bind, bind. cbn [fst snd app].
    split; [reflexivity|]. split.
    + intros d e -> He. apply read_judgment_error. exact He.
    + intros d -> He.
      destruct (judge_freeform_shape _ _ _ _ _ Hr)
        as [(d' & [= <-] & Hhas) | (j & x & [= ->] & Hj & _)].
      * unfold dict_has in Hhas. rewrite He in Hhas. discriminate.
      * exists j. split; [reflexivity|].
        rewrite (read_judgment_normal _ j) by reflexivity. rewrite Hj. reflexivity.
Qed.

(** Three runs: a verdict in capitals, an error without a message, and a
    blank answer, for which the model is not asked. *)
Example evaluate_freeform_runs :
  let q := FreeformQuestion (mkBase 1 "t" "freeform" "Why?" "LLM" true 0 0 0) "ref" in
  let render := fun _ _ _ : string => inl "prompt"%string in
  evaluate_freeform_with
    {| render_template := render;
       complete := fun _ => [ ("judgment"%string, PyStr " CORRECT ");
                              ("explanation"%string, PyStr "fine") ] |}
    q "an answer"
  = (Ok (true, PyStr "fine"), [("Why?"%string, "ref"%string, "an answer"%string)])
  /\ evaluate_freeform_with
       {| render_template := render;
          complete := fun _ => [ ("error"%string,
                                  PyDict [("type"%string, PyStr "APIError")]) ] |}
       q "an answer"
     = (Ok (false, PyStr "LLM error: Unknown"),
        [("Why?"%string, "ref"%string, "an answer"%string)])
  /\ evaluate_freeform_with
       {| render_template := render;
          complete := fun _ => [ ("judgment"%string, PyStr "Correct") ] |}
       q "   "
     = (Ok (false, PyStr "The question was not answered"), []).
Proof. repeat split; reflexivity. Qed.

End Evaluate_freeform_facts.

(* ===================================================================== *)
(** * Further facts about the Python fragment                             *)
(* ===================================================================== *)

Module More_py_facts.
Import Py Props PyFacts.

Lemma lower_char_idem (c : ascii) : lower_char (lower_char c) = lower_char c.
Proof. destruct c as [[] [] [] [] [] [] [] []]; reflexivity. Qed.

Lemma is_space_lower_char (c : ascii) : is_space (lower_char c) = is_space c.
Proof. destruct c as [[] [] [] [] [] [] [] []]; reflexivity. Qed.

Lemma lower_idem (s : string) : lower (lower s) = lower s.
Proof.
  induction s as [|c s IH]; cbn [lower]; [reflexivity|].
  rewrite lower_char_idem, IH. reflexivity.
Qed.

Lemma lstrip_lower (s : string) : lstrip (lower s) = lower (lstrip s).
Proof.
  induction s as [|c s IH]; cbn [lower lstrip]; [reflexivity|].
  rewrite is_space_lower_char. destruct (is_space c); [exact IH | reflexivity].
Qed.

Lemma rstrip_lower (s : string) : rstrip (lower s) = lower (rstrip s).
Proof.
  induction s as [|c s IH]; cbn [lower rstrip]; [reflexivity|].
  rewrite IH, is_space_lower_char.
  destruct (rstrip s); cbn [lower]; [destruct (is_space c)|]; reflexivity.
Qed.

Lemma strip_lower (s : string) : strip (lower s) = lower (strip s).
Proof. unfold strip. rewrite lstrip_lower, rstrip_lower. reflexivity. Qed.

(** Trimming and lower-casing once is as good as doing it twice. *)
Lemma normalise_idem (s : string) :
  lower (strip (lower (strip s))) = lower (strip s).
Proof. rewrite strip_lower, strip_idem, lower_idem. reflexivity. Qed.

Lemma strip_empty_blank (s : string) : is_empty (strip s) = is_blank s.
Proof.
  destruct (is_blank s) eqn:E.
  - rewrite strip_blank by exact E. reflexivity.
  - induction s as [|c s IH]; cbn in E; [discriminate|].
    unfold strip. cbn [lstrip]. destruct (is_space c) eqn:Ec.
    + apply IH. exact E.
    + cbn. destruct (rstrip s); [rewrite Ec|]; reflexivity.
Qed.

End More_py_facts.

(* ===================================================================== *)
(** * core/evaluator.py and core/user_answer_processor.py                 *)
(* ===================================================================== *)

Module Answer_facts.
Import Py Props PyFacts More_py_facts Question_facts Core_question Core_evaluator
       Core_user_answer_processor.

(** X1. The verdict of [evaluate_mcq] does not depend on the letter case of
    the choice nor on blanks around it, and the stored answer itself is
    always judged correct. *)
Theorem evaluate_mcq_normalised (b : Base) (options : list PyVal)
    (correct_answer : string) (explanation : PyVal) (user_choice : string) :
  evaluate_mcq (MCQQuestion b options correct_answer explanation) (lower user_choice)
  = evaluate_mcq (MCQQuestion b options correct_answer explanation) user_choice
  /\ evaluate_mcq (MCQQuestion b options correct_answer explanation) (strip user_choice)
     = evaluate_mcq (MCQQuestion b options correct_answer explanation) user_choice
  /\ evaluate_mcq (MCQQuestion b options correct_answer explanation) correct_answer
     = Ok (true, py_or explanation (PyStr "")).
Proof.
  unfold evaluate_mcq. split; [|split].
  - rewrite strip_lower, lower_idem. reflexivity.
  - rewrite strip_idem. reflexivity.
  - rewrite String.eqb_refl. reflexivity.
Qed.

Lemma handle_exit_no (answer : string) :
  String.eqb (lower answer) "exit" = false -> handle_exit answer = (false, []).
Proof. unfold handle_exit. intros ->. reflexivity. Qed.

Lemma letter_index_normal (answer : string) (i : nat) :
  letter_index answer = Some i ->
  String.eqb (lower answer) "exit" = false /\ lower (strip answer) = answer
  /\ (i < 4)%nat.
Proof.
  unfold letter_index.
  destruct (String.eqb_spec answer "a") as [->|_]; [intros [= <-]; repeat split; lia|].
  destruct (String.eqb_spec answer "b") as [->|_]; [intros [= <-]; repeat split; lia|].
  destruct (String.eqb_spec answer "c") as [->|_]; [intros [= <-]; repeat split; lia|].
  destruct (String.eqb_spec answer "d") as [->|_]; [intros [= <-]; repeat split; lia|].
  discriminate.
Qed.

(** X2. In [process_mcq], typing the letter of one of the first four
    options selects that option: when its text equals the stored answer up
    to letter case and blanks, the answer is judged correct; a letter beyond
    the end of the options is compared with the stored answer as it is. *)
Theorem process_mcq_letter (b : Base) (options : list PyVal)
    (correct_answer : string) (explanation : PyVal) (line : string) (i : nat) :
  letter_index (lower (strip line)) = Some i ->
  (forall text : string,
     options !! i = Some (PyStr text) ->
     process_mcq (MCQQuestion b options correct_answer explanation) line
     = (Ok (Some (String.eqb (lower (strip text)) (lower (strip correct_answer)),
                  py_or explanation (PyStr ""))), []))
  /\ (options !! i = None ->
      process_mcq (MCQQuestion b options correct_answer explanation) line
      = (Ok (Some (String.eqb (lower (strip line)) (lower (strip correct_answer)),
                   py_or explanation (PyStr ""))), [])).
Proof.
  intros Hi. destruct (letter_index_normal _ _ Hi) as (Hexit & Hnorm & _).
  unfold process_mcq, get_user_answer.
  rewrite (handle_exit_no _ Hexit), Hi.
  unfold mbind, result_bind, bind. cbn [options_of]. split.
  - intros text ->. reflexivity.
  - intros ->. cbn. rewrite Hnorm. reflexivity.
Qed.

Lemma process_mcq_letter_witness :
  process_mcq
    (MCQQuestion (mkBase 7 "geo" "multiple-choice" "Capital?" "LLM" true 0 0 0)
                 [PyStr "Rome"; PyStr " Paris"; PyStr "Oslo"] "paris" PyNone)
    "  B "
  = (Ok (Some (true, PyStr "")), []).
Proof.
  exact (proj1 (process_mcq_letter
                  (mkBase 7 "geo" "multiple-choice" "Capital?" "LLM" true 0 0 0)
                  [PyStr "Rome"; PyStr " Paris"; PyStr "Oslo"] "paris" PyNone
                  "  B " 1%nat eq_refl) " Paris"%string eq_refl).
Defined.

(** X3. In [process_mcq], an answer that is neither "exit" nor one of the
    letters a to d is compared with the stored answer as text, letter case
    and surrounding blanks aside. *)
Theorem process_mcq_text (b : Base) (options : list PyVal)
    (correct_answer : string) (explanation : PyVal) (line : string) :
  String.eqb (lower (strip line)) "exit" = false ->
  letter_index (lower (strip line)) = None ->
  process_mcq (MCQQuestion b options correct_answer explanation) line
  = (Ok (Some (String.eqb (lower (strip line)) (lower (strip correct_answer)),
               py_or explanation (PyStr ""))), []).
Proof.
  intros Hexit Hletter. unfold process_mcq, get_user_answer.
  rewrite handle_exit_no by (rewrite lower_idem; exact Hexit).
  rewrite Hletter. cbn. rewrite normalise_idem. reflexivity.
Qed.

Lemma process_mcq_text_witness :
  process_mcq
    (MCQQuestion (mkBase 7 "geo" "multiple-choice" "Capital?" "LLM" true 0 0 0)
                 [PyStr "Rome"; PyStr "Paris"] "Paris" (PyStr "It is."))
    " PARIS  "
  = (Ok (Some (true, PyStr "It is.")), []).
Proof.
  exact (process_mcq_text
           (mkBase 7 "geo" "multiple-choice" "Capital?" "LLM" true 0 0 0)
           [PyStr "Rome"; PyStr "Paris"] "Paris" (PyStr "It is.") " PARIS  "
           eq_refl eq_refl).
Defined.

(** X4. Typing "exit", in any letter case and with blanks around it, leaves
    [process_mcq] and [process_freeform] without an evaluation and without
    a call of the judge; a blank line given to [process_freeform] is
    reported as not answered, again without a call of the judge. *)
Theorem process_exit_and_blank
    (judge : string -> string -> string -> result PyVal)
    (question : Question) (line : string) :
  (lower (strip line) = "exit"%string ->
     process_mcq question line = (Ok None, ["Exiting this Mode."%string])
     /\ process_freeform judge question line
        = (Ok None, [], ["Exiting this Mode."%string]))
  /\ (is_blank line = true ->
      process_freeform judge question line
      = (Ok (Some (false, PyStr "The question was not answered")), [], [])).
Proof.
  split.
  - intros H. unfold process_mcq, process_freeform, get_user_answer, handle_exit.
    rewrite lower_idem, H. split; reflexivity.
  - intros H. unfold process_freeform, get_user_answer.
    rewrite (strip_blank _ H). reflexivity.
Qed.

End Answer_facts.

(* ===================================================================== *)
(** * core/quiz_manager.py: lookup, activation, ids                       *)
(* ===================================================================== *)

Module Store_facts.
Import Py Props More_props PyFacts Core_question File_handler File_handler_facts
       Core_quiz_manager Quiz_manager_facts.

(** [List.find] returns the first element that passes the test. *)
Lemma find_first {A} (f : A -> bool) (l : list A) :
  match List.find f l with
  | Some x =>
      exists i : nat, l !! i = Some x /\ f x = true
        /\ forall (j : nat) (y : A), (j < i)%nat -> l !! j = Some y -> f y = false
  | None => forall x, x ∈ l -> f x = false
  end.
Proof.
  induction l as [|a l IH]; cbn [List.find].
  - intros x Hx. inversion Hx.
  - destruct (f a) eqn:Ea.
    + exists 0%nat. split; [reflexivity|]. split; [exact Ea|]. intros j y Hj. lia.
    + destruct (List.find f l) as [x|].
      * destruct IH as (i & Hi & Hx & Hfirst). exists (S i).
        split; [exact Hi|]. split; [exact Hx|].
        intros [|j] y Hj Hy; cbn in Hy; [congruence|]. apply (Hfirst j); [lia | exact Hy].
      * intros x Hx. apply elem_of_cons in Hx as [->|Hx]; [exact Ea | exact (IH x Hx)].
Qed.

Lemma find_at {A} (f : A -> bool) (l : list A) (i : nat) (x : A) :
  l !! i = Some x -> f x = true ->
  (forall (j : nat) (y : A), (j < i)%nat -> l !! j = Some y -> f y = false) ->
  List.find f l = Some x.
Proof.
  revert i. induction l as [|a l IH]; intros i Hi Hx Hfirst; [discriminate|].
  cbn [List.find]. destruct i as [|i]; cbn in Hi.
  - injection Hi as ->. rewrite Hx. reflexivity.
  - rewrite (Hfirst 0%nat a) by (lia || reflexivity).
    apply (IH i Hi Hx). intros j y Hj Hy. apply (Hfirst (S j)); [lia | exact Hy].
Qed.

Lemma deref_test_true (h : gmap nat Question) (test : Question -> bool) (r : ref) :
  deref_test h test r = true <-> exists q, h !! r = Some q /\ test q = true.
Proof.
  unfold deref_test. destruct (h !! r) as [q|].
  - split; [intros H; exists q; auto | intros (q' & [= <-] & H); exact H].
  - split; [discriminate | intros (q' & H & _); discriminate].
Qed.

(** The two outcomes of [find_by_id]. *)
Lemma find_by_id_cases (w : World) (qid : Z) :
  match find_by_id w qid with
  | Some r =>
      exists (i : nat) (q : Question),
        _questions w !! i = Some r /\ heap w !! r = Some q
        /\ id (base_of q) = qid
        /\ forall (j : nat) (r' : ref), (j < i)%nat ->
             _questions w !! j = Some r' -> id_at (heap w) r' <> Some qid
  | None =>
      forall r : ref, r ∈ _questions w -> id_at (heap w) r <> Some qid
  end.
Proof.
  unfold find_by_id.
  pose proof (find_first (deref_test (heap w) (fun q => id (base_of q) =? qid))
                (_questions w)) as H.
  assert (Hno : forall r, deref_test (heap w) (fun q => id (base_of q) =? qid) r = false ->
                          id_at (heap w) r <> Some qid).
  { intros r Hr. unfold id_at, deref_test in *. destruct (heap w !! r) as [q|]; cbn.
    - intros [= E]. apply Z.eqb_neq in Hr. contradiction.
    - discriminate. }
  destruct (List.find _ _) as [r|].
  - destruct H as (i & Hi & Hr & Hfirst).
    apply deref_test_true in Hr as (q & Hq & Hid). apply Z.eqb_eq in Hid.
    exists i, q. repeat split; try assumption.
    intros j r' Hj Hr'. apply Hno. exact (Hfirst j r' Hj Hr').
  - intros r Hr. apply Hno. exact (H r Hr).
Qed.

(** X5. [find_by_id] returns the first question of the store, in its order,
    whose id is the one asked for, and nothing exactly when no stored
    question has that id. *)
Theorem find_by_id_first (w : World) (qid : Z) :
  match find_by_id w qid with
  | Some r =>
      exists (i : nat) (q : Question),
        _questions w !! i = Some r /\ heap w !! r = Some q
        /\ id (base_of q) = qid
        /\ forall (j : nat) (r' : ref), (j < i)%nat ->
             _questions w !! j = Some r' -> id_at (heap w) r' <> Some qid
  | None =>
      forall r : ref, r ∈ _questions w -> id_at (heap w) r <> Some qid
  end.
Proof. exact (find_by_id_cases w qid). Qed.

Lemma erase_active_set_active (active_ : bool) (q : Question) :
  erase_active (with_base (set_active active_) q) = erase_active q.
Proof. destruct q; reflexivity. Qed.

(** X6. [toggle_active] on an id the store does not hold returns false and
    changes nothing, the persisted collection included.  On an id it holds
    it returns true, sets the flag of the first question with that id and
    nothing else of it, leaves the other objects and the order of the store
    alone, persists the store, and that question is listed by [list_active]
    afterwards exactly when the flag was set to true. *)
Theorem toggle_active_effect (w : World) (qid : Z) (active_ : bool) :
  match find_by_id w qid with
  | None => toggle_active w qid active_ = (w, false)
  | Some r =>
      exists q q' : Question,
        heap w !! r = Some q
        /\ (toggle_active w qid active_).2 = true
        /\ heap (toggle_active w qid active_).1 !! r = Some q'
        /\ active (base_of q') = active_
        /\ erase_active q' = erase_active q
        /\ (forall r' : ref, r' <> r ->
              heap (toggle_active w qid active_).1 !! r' = heap w !! r')
        /\ _questions (toggle_active w qid active_).1 = _questions w
        /\ saved (toggle_active w qid active_).1
           = List.map as_dict
               (objects (heap (toggle_active w qid active_).1) (_questions w))
        /\ (r ∈ list_active (toggle_active w qid active_).1 <-> active_ = true)
  end.
Proof.
  unfold toggle_active.
  pose proof (find_by_id_cases w qid) as H.
  destruct (find_by_id w qid) as [r|]; [|reflexivity].
  destruct H as (i & q & Hi & Hq & _).
  exists q, (with_base (set_active active_) q). cbn [fst snd _persist heap _questions saved].
  split; [exact Hq|]. split; [reflexivity|].
  assert (Hr : alter (with_base (set_active active_)) r (heap w) !! r
               = Some (with_base (set_active active_) q))
    by (rewrite lookup_alter_eq, Hq; reflexivity).
  split; [exact Hr|]. split; [rewrite with_base_base_of; reflexivity|].
  split; [apply erase_active_set_active|].
  split; [intros r' Hne; apply lookup_alter_ne; congruence|].
  split; [reflexivity|]. split; [reflexivity|].
  unfold list_active. cbn [heap _questions].
  rewrite list_elem_of_In, filter_In, <- list_elem_of_In.
  unfold deref_test. cbn [_persist heap _questions]. rewrite Hr, with_base_base_of. cbn.
  split; [intros [_ H]; exact H | intros H; split; [|exact H]].
  eapply list_elem_of_lookup_2. exact Hi.
Qed.

(** ** Ids after [add_questions] *)

Lemma objects_app (h : gmap nat Question) (l k : list ref) :
  objects h (l ++ k) = objects h l ++ objects h k.
Proof. unfold objects. apply omap_app. Qed.

Lemma objects_ext (h h' : gmap nat Question) (l : list ref) :
  (forall r, r ∈ l -> h' !! r = h !! r) -> objects h' l = objects h l.
Proof.
  induction l as [|r l IH]; intros H; [reflexivity|].
  unfold objects in *. cbn. rewrite (H r) by left.
  rewrite IH by (intros r' Hr'; apply H; right; exact Hr'). reflexivity.
Qed.

Lemma elem_of_objects (h : gmap nat Question) (l : list ref) (r : ref) (q : Question) :
  r ∈ l -> h !! r = Some q -> q ∈ objects h l.
Proof. intros Hr Hq. unfold objects. apply list_elem_of_omap. exists r. auto. Qed.

Lemma stored_id_bound (w : World) (r : ref) (q : Question) :
  r ∈ _questions w -> heap w !! r = Some q ->
  id (base_of q) <= max_id_of (stored_ids w).
Proof.
  intros Hr Hq. apply max_id_of_bound. unfold stored_ids.
  apply list_elem_of_fmap. exists q. split; [reflexivity|].
  exact (elem_of_objects _ _ _ _ Hr Hq).
Qed.

(** The world [add_questions] returns, through the loop [assign_ids]. *)
Lemma add_questions_unfold (w : World) (new_questions : list ref) :
  exists h' : gmap nat Question,
    add_questions w new_questions
    = _persist (mkWorld h' (_questions w ++ new_questions) (saved w))
    /\ (forall r, r ∉ new_questions -> h' !! r = heap w !! r)
    /\ (NoDup new_questions ->
        forall (i : nat) r, new_questions !! i = Some r ->
          h' !! r
          = with_base (set_id (max_id_of (stored_ids w) + 1 + Z.of_nat i))
              <$> heap w !! r).
Proof.
  unfold add_questions.
  pose proof (get_next_id_max (List.map as_dict (objects (heap w) (_questions w))))
    as Hnext.
  rewrite parsed_ids_as_dict in Hnext. fold (stored_ids w) in Hnext.
  destruct (assign_ids_spec new_questions (heap w) (_questions w)
              (get_next_id (List.map as_dict (objects (heap w) (_questions w)))))
    as (Hq & Hframe & Hnew).
  destruct (assign_ids _ _ _ _) as [h' questions'].
  cbn [fst snd] in Hq, Hframe, Hnew. subst questions'.
  exists h'. split; [reflexivity|]. split; [exact Hframe|].
  intros Hnd i r Hi. rewrite (Hnew Hnd i r Hi), Hnext. do 3 f_equal. lia.
Qed.

(** X7. After [add_questions] on new questions (distinct objects, none in
    the store), [find_by_id] on the id given to the i-th new question
    returns that very question. *)
Theorem add_questions_then_find (w : World) (new_questions : list ref)
    (i : nat) (r : ref) :
  NoDup new_questions ->
  (forall r, r ∈ new_questions -> r ∉ _questions w) ->
  (forall r, r ∈ new_questions -> is_Some (heap w !! r)) ->
  new_questions !! i = Some r ->
  find_by_id (add_questions w new_questions)
             (max_id_of (stored_ids w) + 1 + Z.of_nat i)
  = Some r.
Proof.
  intros Hnd Hfresh Halloc Hi.
  destruct (add_questions_unfold w new_questions) as (h' & -> & Hframe & Hnew).
  specialize (Hnew Hnd).
  unfold find_by_id. cbn [_persist heap _questions].
  apply (find_at _ _ (length (_questions w) + i)).
  - rewrite lookup_app_r by lia.
    replace (length (_questions w) + i - length (_questions w))%nat with i by lia.
    exact Hi.
  - apply deref_test_true.
    destruct (Halloc r) as [q Hq]; [eapply list_elem_of_lookup_2; exact Hi|].
    exists (with_base (set_id (max_id_of (stored_ids w) + 1 + Z.of_nat i)) q).
    split; [rewrite (Hnew i r Hi), Hq; reflexivity|].
    rewrite with_base_base_of. cbn. apply Z.eqb_refl.
  - intros j r' Hj Hr'. unfold deref_test.
    destruct (decide (j < length (_questions w))%nat) as [Hold|Hnew'].
    + rewrite lookup_app_l in Hr' by exact Hold.
      assert (Hin : r' ∈ _questions w) by (eapply list_elem_of_lookup_2; exact Hr').
      rewrite Hframe by (intros Hn; exact (Hfresh r' Hn Hin)).
      destruct (heap w !! r') as [q|] eqn:Hq; [|reflexivity].
      pose proof (stored_id_bound w r' q Hin Hq). apply Z.eqb_neq. lia.
    + rewrite lookup_app_r in Hr' by lia.
      rewrite (Hnew _ r' Hr').
      destruct (heap w !! r') as [q|]; [|reflexivity].
      cbn. rewrite with_base_base_of. cbn. apply Z.eqb_neq. lia.
Qed.

Lemma add_questions_then_find_witness :
  find_by_id
    (add_questions
       (mkWorld
          {[ 0%nat := FreeformQuestion (mkBase 1 "t" "freeform" "a?" "LLM" true 0 0 0) "a";
             1%nat := FreeformQuestion (mkBase 3 "t" "freeform" "b?" "LLM" true 0 0 0) "b";
             2%nat := FreeformQuestion (mkBase 0 "t" "freeform" "c?" "LLM" true 0 0 0) "c";
             3%nat := FreeformQuestion (mkBase 0 "t" "freeform" "d?" "LLM" true 0 0 0) "d" ]}
          [0; 1]%nat [])
       [2; 3]%nat)
    5
  = Some 3%nat.
Proof.
  assert (Hnd : NoDup [2; 3]%nat)
    by (apply (bool_decide_unpack _); vm_compute; exact I).
  refine (add_questions_then_find
            (mkWorld
               {[ 0%nat := FreeformQuestion (mkBase 1 "t" "freeform" "a?" "LLM" true 0 0 0) "a";
                  1%nat := FreeformQuestion (mkBase 3 "t" "freeform" "b?" "LLM" true 0 0 0) "b";
                  2%nat := FreeformQuestion (mkBase 0 "t" "freeform" "c?" "LLM" true 0 0 0) "c";
                  3%nat := FreeformQuestion (mkBase 0 "t" "freeform" "d?" "LLM" true 0 0 0) "d" ]}
               [0; 1]%nat [])
            [2; 3]%nat 1%nat 3%nat Hnd _ _ eq_refl).
  - intros r Hr Hin. cbn in Hin.
    repeat (apply elem_of_cons in Hr as [->|Hr]); [ | | inversion Hr];
      repeat (apply elem_of_cons in Hin as [Hin|Hin]; [discriminate|]);
      inversion Hin.
  - intros r Hr. repeat (apply elem_of_cons in Hr as [->|Hr]);
      [vm_compute; eexists; reflexivity ..|]. inversion Hr.
Defined.

End Store_facts.

(* ===================================================================== *)
(** * Ids stay unique; weights follow the results                         *)
(* ===================================================================== *)

Module Store_invariants.
Import Py Props More_props PyFacts Core_question File_handler File_handler_facts
       Core_selector Selector_facts Core_quiz_manager Quiz_manager_facts Store_facts.

(** The ids the loop of [add_questions] leaves in the new questions. *)
Lemma assign_ids_new_ids (new_questions : list ref) :
  forall (h : gmap nat Question) (questions : list ref) (next_id : Z),
    NoDup new_questions ->
    (forall r, r ∈ new_questions -> is_Some (h !! r)) ->
    List.map (fun q => id (base_of q))
      (objects (assign_ids h questions next_id new_questions).1 new_questions)
    = (fun i => next_id + Z.of_nat i) <$> seq 0 (length new_questions).
Proof.
  induction new_questions as [|r0 rest IH]; intros h questions next_id Hnd Halloc;
    [reflexivity|].
  apply NoDup_cons in Hnd as [Hr0 Hnd].
  destruct (assign_ids_spec rest (alter (with_base (set_id next_id)) r0 h)
              (questions ++ [r0]) (next_id + 1)) as (_ & Hframe & _).
  cbn [assign_ids length seq]. unfold objects. cbn [omap list_omap].
  rewrite (Hframe r0 Hr0), lookup_alter_eq.
  destruct (Halloc r0) as [q0 Hq0]; [left|]. rewrite Hq0. cbn [fmap option_fmap option_map].
  cbn [List.map]. rewrite with_base_base_of. cbn [set_id id].
  fold (objects (assign_ids (alter (with_base (set_id next_id)) r0 h)
                   (questions ++ [r0]) (next_id + 1) rest).1 rest).
  rewrite IH; [|exact Hnd|].
  - cbn [fmap list_fmap]. f_equal; [lia|].
    rewrite <- fmap_S_seq, <- list_fmap_compose. apply list_fmap_ext.
    intros _ i _. cbn. lia.
  - intros r Hr. apply lookup_alter_is_Some. apply Halloc. right. exact Hr.
Qed.

(** X8. [add_questions] keeps the ids of the store pairwise distinct: when
    they are before new questions (distinct objects, none in the store) are
    added, they are afterwards. *)
Theorem add_questions_keeps_ids_unique (w : World) (new_questions : list ref) :
  NoDup (stored_ids w) ->
  NoDup new_questions ->
  (forall r, r ∈ new_questions -> r ∉ _questions w) ->
  (forall r, r ∈ new_questions -> is_Some (heap w !! r)) ->
  NoDup (stored_ids (add_questions w new_questions)).
Proof.
  intros Hids Hnd Hfresh Halloc.
  pose proof (get_next_id_max (List.map as_dict (objects (heap w) (_questions w))))
    as Hnext.
  rewrite parsed_ids_as_dict in Hnext. fold (stored_ids w) in Hnext.
  pose proof (assign_ids_new_ids new_questions (heap w) (_questions w)
                (get_next_id (List.map as_dict (objects (heap w) (_questions w))))
                Hnd Halloc) as Hnew.
  destruct (assign_ids_spec new_questions (heap w) (_questions w)
              (get_next_id (List.map as_dict (objects (heap w) (_questions w)))))
    as (Hq & Hframe & _).
  unfold stored_ids at 1, add_questions.
  destruct (assign_ids _ _ _ _) as [h' questions'].
  cbn [fst snd] in Hq, Hframe, Hnew. subst questions'.
  cbn [_persist heap _questions].
  rewrite objects_app, map_app, Hnew.
  rewrite (objects_ext (heap w) h')
    by (intros r Hr; apply Hframe; intros Hn; exact (Hfresh r Hn Hr)).
  fold (stored_ids w). apply NoDup_app. split; [exact Hids|]. split.
  - intros z Hz Hz'. apply max_id_of_bound in Hz.
    apply list_elem_of_fmap in Hz' as (i & -> & _). lia.
  - apply NoDup_fmap_2; [|apply NoDup_seq].
    intros i j Hij. lia.
Qed.

Lemma add_questions_keeps_ids_unique_witness :
  NoDup (stored_ids
           (add_questions
              (mkWorld
                 {[ 0%nat := FreeformQuestion (mkBase 1 "t" "freeform" "a?" "LLM" true 0 0 0) "a";
                    1%nat := FreeformQuestion (mkBase 3 "t" "freeform" "b?" "LLM" true 0 0 0) "b";
                    2%nat := FreeformQuestion (mkBase 0 "t" "freeform" "c?" "LLM" true 0 0 0) "c";
                    3%nat := FreeformQuestion (mkBase 0 "t" "freeform" "d?" "LLM" true 0 0 0) "d" ]}
                 [0; 1]%nat [])
              [2; 3]%nat)).
Proof.
  assert (Hids : NoDup [1; 3]) by (apply (bool_decide_unpack _); vm_compute; exact I).
  assert (Hnd : NoDup [2; 3]%nat)
    by (apply (bool_decide_unpack _); vm_compute; exact I).
  refine (add_questions_keeps_ids_unique
            (mkWorld
               {[ 0%nat := FreeformQuestion (mkBase 1 "t" "freeform" "a?" "LLM" true 0 0 0) "a";
                  1%nat := FreeformQuestion (mkBase 3 "t" "freeform" "b?" "LLM" true 0 0 0) "b";
                  2%nat := FreeformQuestion (mkBase 0 "t" "freeform" "c?" "LLM" true 0 0 0) "c";
                  3%nat := FreeformQuestion (mkBase 0 "t" "freeform" "d?" "LLM" true 0 0 0) "d" ]}
               [0; 1]%nat [])
            [2; 3]%nat Hids Hnd _ _).
  - intros r Hr Hin. cbn in Hin.
    repeat (apply elem_of_cons in Hr as [->|Hr]); [ | | inversion Hr];
      repeat (apply elem_of_cons in Hin as [Hin|Hin]; [discriminate|]);
      inversion Hin.
  - intros r Hr. repeat (apply elem_of_cons in Hr as [->|Hr]);
      [vm_compute; eexists; reflexivity ..|]. inversion Hr.
Defined.

(** ** Weights after a recorded result *)





(** ** What a recorded result leaves alone *)

Lemma deref_test_alter (h : gmap nat Question) (f : Question -> Question)
    (test : Question -> bool) (r r' : ref) :
  (forall q, test (f q) = test q) ->
  deref_test (alter f r h) test r' = deref_test h test r'.
Proof.
  intros Hf. unfold deref_test. destruct (decide (r = r')) as [<-|Hne].
  - rewrite lookup_alter_eq. destruct (h !! r); cbn; [apply Hf | reflexivity].
  - rewrite lookup_alter_ne by exact Hne. reflexivity.
Qed.

Lemma find_same_test {A} (f g : A -> bool) (l : list A) :
  (forall x, f x = g x) -> List.find f l = List.find g l.
Proof.
  intros H. induction l as [|a l IH]; [reflexivity|].
  cbn [List.find]. rewrite H, IH. reflexivity.
Qed.

(** X19. Recording a result changes neither which questions are active nor
    what [find_by_id] returns: [list_active] and [find_by_id] give the same
    answers after [record_result] as before. *)
Theorem record_result_keeps_lookup (w : World) (question : ref) (is_correct : bool) :
  list_active (record_result w question is_correct) = list_active w
  /\ forall qid : Z,
       find_by_id (record_result w question is_correct) qid = find_by_id w qid.
Proof.
  unfold list_active, find_by_id, record_result. cbn [_persist heap _questions]. split.
  - apply filter_ext. intros r. apply deref_test_alter.
    intros q. rewrite with_base_base_of. destruct is_correct; reflexivity.
  - intros qid. apply find_same_test. intros r. apply deref_test_alter.
    intros q. rewrite with_base_base_of. destruct is_correct; reflexivity.
Qed.

End Store_invariants.

(* ===================================================================== *)
(** * Loading: core/quiz_manager.py with persistence/file_handler.py      *)
(* ===================================================================== *)

Module Loading_facts.
Import Py Props More_props PyFacts More_py_facts Core_question Question_facts
       File_handler Core_quiz_manager.

Lemma type_tag_lower (d : dict) (qtype : string) :
  type_tag d = Ok qtype -> lower qtype = qtype.
Proof.
  unfold type_tag, py_lower. destruct (py_or _ _); try discriminate.
  intros [= <-]. apply lower_idem.
Qed.

(** A well-tagged question survives [as_dict] followed by [from_dict]. *)
Lemma from_dict_as_dict_well_tagged (q : Question) :
  well_tagged q -> from_dict (as_dict q) = Ok q.
Proof.
  destruct q as [b|b options correct_answer explanation|b reference_answer];
    intros Hq; cbn in Hq; [contradiction| |].
  - rewrite from_dict_as_dict_mcq, Hq. destruct b; cbn in *. subst. reflexivity.
  - destruct Hq as [Hl Hne]. rewrite from_dict_as_dict_freeform, Hl.
    apply String.eqb_neq in Hne. rewrite Hne. destruct b; reflexivity.
Qed.

Lemma from_dict_well_tagged (d : dict) (q : Question) :
  from_dict d = Ok q -> well_tagged q.
Proof.
  intros H.
  destruct (from_dict_fields d q H)
    as (qtype & id_ & ts & cc & ic & Ht & _ & _ & _ & _ & Hb & Hq).
  apply type_tag_lower in Ht.
  destruct Hq as [(Heq & options_ & _ & E) | (Hne & E)]; rewrite E; cbn; rewrite Hb; cbn.
  - exact Heq.
  - split; [exact Ht | exact Hne].
Qed.

(** X10. What [from_dict] returns is stable: serialized with [as_dict] and
    read again with [from_dict], it comes back equal in all fields. *)
Theorem from_dict_reload (d : dict) (q : Question) :
  from_dict d = Ok q -> from_dict (as_dict q) = Ok q.
Proof.
  intros H. apply from_dict_as_dict_well_tagged. exact (from_dict_well_tagged d q H).
Qed.

Lemma from_dict_reload_witness :
  from_dict (as_dict (MCQQuestion (mkBase 5 "7" "multiple-choice" "" "LLM" false 0 2 0)
                                  [PyStr "x"; PyInt 3] "None" (PyInt 4)))
  = Ok (MCQQuestion (mkBase 5 "7" "multiple-choice" "" "LLM" false 0 2 0)
                    [PyStr "x"; PyInt 3] "None" (PyInt 4)).
Proof.
  exact (from_dict_reload
           [ ("id"%string, PyStr " 5 "); ("topic"%string, PyInt 7);
             ("type"%string, PyStr "Multiple-CHOICE"); ("active"%string, PyInt 0);
             ("correct_count"%string, PyStr "2");
             ("correct_answer"%string, PyNone);
             ("options"%string, PyList [PyStr "x"; PyInt 3]);
             ("explanation"%string, PyInt 4) ]
           (MCQQuestion (mkBase 5 "7" "multiple-choice" "" "LLM" false 0 2 0)
                        [PyStr "x"; PyInt 3] "None" (PyInt 4))
           eq_refl).
Defined.

(** ** The store after loading *)


Lemma objects_map_seq_from (pre qs : list Question) :
  objects (map_seq 0 (pre ++ qs)) (seq (length pre) (length qs)) = qs.
Proof.
  revert pre. induction qs as [|q qs IH]; intros pre; [reflexivity|].
  cbn [length seq]. unfold objects. cbn [omap list_omap].
  rewrite lookup_map_seq_0, list_lookup_middle by reflexivity.
  f_equal. specialize (IH (pre ++ [q])).
  rewrite <- app_assoc, length_app in IH. cbn [length app] in IH.
  rewrite Nat.add_1_r in IH. exact IH.
Qed.

Lemma objects_map_seq (qs : list Question) :
  objects (map_seq 0 qs) (seq 0 (length qs)) = qs.
Proof. exact (objects_map_seq_from [] qs). Qed.



Lemma from_dict_any_ok (v : PyVal) : is_ok (from_dict_any v) = loadable_any v.
Proof. destruct v; try reflexivity. apply from_dict_ok_iff_loadable. Qed.

Lemma from_dicts_ok (records : list PyVal) :
  is_ok (from_dicts records) = forallb loadable_any records.
Proof.
  induction records as [|v records IH]; [reflexivity|].
  cbn [from_dicts forallb]. rewrite <- from_dict_any_ok, <- IH.
  destruct (from_dict_any v); [|reflexivity]. cbn.
  destruct (from_dicts records); reflexivity.
Qed.

Lemma from_dicts_lookup (records : list PyVal) (qs : list Question) :
  from_dicts records = Ok qs ->
  length qs = length records
  /\ forall (i : nat) (v : PyVal), records !! i = Some v ->
       exists q, from_dict_any v = Ok q /\ qs !! i = Some q.
Proof.
  revert qs. induction records as [|v records IH]; intros qs H.
  - injection H as <-. split; [reflexivity|]. intros i v Hi. discriminate.
  - cbn [from_dicts] in H. apply bind_ok in H as (q & Hq & H).
    apply bind_ok in H as (qs' & Hqs & H). injection H as <-.
    destruct (IH qs' Hqs) as [Hlen Hlook]. split; [cbn; rewrite Hlen; reflexivity|].
    intros [|i] v' Hi; cbn in Hi.
    + injection Hi as <-. exists q. split; [exact Hq | reflexivity].
    + exact (Hlook i v' Hi).
Qed.

(** X12. [QuizManager.__init__] succeeds exactly when every record of the
    file is a mapping [from_dict] can load, so one malformed record makes the
    whole load raise; when it succeeds the store holds one question per
    record, in the order of the file, each the one [from_dict] builds from
    its record.  A missing or unreadable file gives the empty store. *)
Theorem init_all_or_nothing (file : option PyVal) :
  is_ok (init file) = forallb loadable_any (load_questions file)
  /\ (forall (h : gmap nat Question) (refs : list ref),
        init file = Ok (h, refs) ->
        length refs = length (load_questions file)
        /\ forall (i : nat) (v : PyVal), load_questions file !! i = Some v ->
             exists q, from_dict_any v = Ok q /\ objects h refs !! i = Some q)
  /\ init None = Ok (∅, []).
Proof.
  split; [|split; [|reflexivity]].
  - unfold init. rewrite <- from_dicts_ok. destruct (from_dicts _); reflexivity.
  - intros h refs H. unfold init in H. apply bind_ok in H as (qs & Hqs & H).
    injection H as <- <-. rewrite objects_map_seq, length_seq.
    exact (from_dicts_lookup _ _ Hqs).
Qed.

End Loading_facts.

(* ===================================================================== *)
(** * core/statistics.py                                                  *)
(* ===================================================================== *)

Module Statistics_facts.
Import Py Core_question Core_statistics.



End Statistics_facts.

(* ===================================================================== *)
(** * The modes: counts, test selection, activation                       *)
(* ===================================================================== *)

Module Modes_facts.
Import Py Props More_props PyFacts More_py_facts Core_question Core_selector
       Selector_facts Core_quiz_manager Quiz_manager_facts Store_facts
       Core_user_answer_processor Modes_generate Modes_test Modes_manage.



(** [random_unique] on a positive number. *)
Lemma random_unique_positive {A} (rnd : nat -> nat) (questions : list A) (n : Z) :
  0 < n ->
  exists selected rest : list A,
    random_unique rnd questions n = Ok selected
    /\ length selected = Z.to_nat (Z.min n (Z.of_nat (length questions)))
    /\ selected ++ rest ≡ₚ questions.
Proof.
  intros Hn. unfold random_unique, sample.
  destruct (Z.leb_spec n 0) as [|_]; [lia|].
  assert (Hk : (0 <=? Z.min n (Z.of_nat (length questions)))
               && (Z.min n (Z.of_nat (length questions)) <=? Z.of_nat (length questions))
               = true).
  { apply andb_true_intro. split; apply Z.leb_le; lia. }
  rewrite Hk. cbn [negb].
  destruct (sample_loop_perm rnd (length questions)
              (Z.to_nat (Z.min n (Z.of_nat (length questions)))) questions 0%nat)
    as (selected & rest & Hs & Hl & Hp); [reflexivity | lia |].
  rewrite Nat.sub_0_r, firstn_all in Hp.
  exists selected, rest. auto.
Qed.

(** X15. The selection that opens a test session: there is none when no
    question is active or when the line typed is not a positive number;
    otherwise the session gets at least one question and at most all the
    active ones, min(n, active) of them at distinct positions, also for a
    number n above the bound shown in the prompt. *)
Theorem select_for_test_size {A} (rnd : nat -> nat) (active_questions : list A)
    (line : string) :
  match select_for_test rnd active_questions line with
  | None =>
      active_questions = []
      \/ forall n, int_of_str (strip line) = Some n -> n <= 0
  | Some outcome =>
      exists (n : Z) (selected rest : list A),
        int_of_str (strip line) = Some n /\ 0 < n
        /\ outcome = Ok selected
        /\ Z.of_nat (length selected) = Z.min n (Z.of_nat (length active_questions))
        /\ (1 <= length selected <= length active_questions)%nat
        /\ selected ++ rest ≡ₚ active_questions
  end.
Proof.
  unfold select_for_test, _prompt_number_of_questions.
  destruct active_questions as [|a l] eqn:E; [left; reflexivity|]. rewrite <- E.
  assert (Hlen : (1 <= length active_questions)%nat) by (rewrite E; cbn; lia).
  clear E.
  destruct (int_of_str (strip line)) as [n|]; cbn [fst];
    [|right; intros n Hn; discriminate].
  destruct (Z.leb_spec n 0) as [Hle|Hpos]; cbn [fst].
  - right. intros n' [= <-]. exact Hle.
  - destruct (random_unique_positive rnd active_questions n Hpos)
      as (selected & rest & Hs & Hl & Hp).
    exists n, selected, rest. repeat split; try assumption; try lia.
Qed.


End Modes_facts.

(* ===================================================================== *)
(** * llm/llm_client.py                                                   *)
(* ===================================================================== *)

Module Llm_facts.
Import Py Props PyFacts More_py_facts Llm_client Evaluate_freeform_facts.

(** X17. [judge_freeform] returns either a mapping that has an error, or a
    mapping of exactly a judgment and an explanation, both strings with no
    blanks around them; it raises only when the template was rendered and
    the model's answer has no error (then a judgment or an explanation that
    is not a string makes the trimming fail). *)
Theorem judge_freeform_result (client : service)
    (question reference_answer user_answer : string) :
  match judge_freeform client question reference_answer user_answer with
  | Ok r =>
      (exists d : dict, r = PyDict d /\ dict_has d "error" = true)
      \/ (exists judgment explanation : string,
            r = PyDict [ ("judgment"%string, PyStr judgment);
                         ("explanation"%string, PyStr explanation) ]
            /\ strip judgment = judgment /\ strip explanation = explanation)
  | Raise e =>
      e = AttributeError
      /\ exists prompt : string,
           render_template client question reference_answer user_answer = inl prompt
           /\ dict_has (complete client prompt) "error" = false
  end.
Proof.
  destruct (judge_freeform client question reference_answer user_answer)
    as [r|e] eqn:E.
  - exact (judge_freeform_shape _ _ _ _ _ E).
  - unfold judge_freeform in E.
    destruct (render_template client question reference_answer user_answer)
      as [prompt | [type_name message]]; [|discriminate].
    destruct (dict_has (complete client prompt) "error") eqn:Eh; [discriminate|].
    split; [|exists prompt; split; [reflexivity | exact Eh]].
    unfold py_strip in E.
    destruct (py_or (dict_get _ "judgment" _) _); cbn in E; try congruence;
      destruct (py_or (dict_get _ "explanation" _) _); cbn in E; congruence.
Qed.

(** X18. [generate_questions] on an empty or blank topic returns an error
    mapping and neither renders the template nor calls the model.  Otherwise
    it renders once, with the topic trimmed and with counts that are never
    negative (3 and 1 when none is given); the model is called only after a
    successful rendering, and its answer is then the result, while a failed
    rendering gives an error mapping. *)
Theorem generate_questions_guard
    (render : string -> Z -> Z -> string + (string * string))
    (complete_ : string -> dict) (topic : string) (num_mcq num_freeform : option Z) :
  (is_blank topic = true ->
     snd (generate_questions render complete_ topic num_mcq num_freeform) = []
     /\ dict_has (fst (generate_questions render complete_ topic num_mcq num_freeform))
          "error" = true)
  /\ (is_blank topic = false ->
      exists m f : Z,
        0 <= m /\ 0 <= f
        /\ (num_mcq = None -> m = 3) /\ (num_freeform = None -> f = 1)
        /\ (forall n, num_mcq = Some n -> m = Z.max 0 n)
        /\ (forall n, num_freeform = Some n -> f = Z.max 0 n)
        /\ match render (strip topic) m f with
           | inl prompt =>
               generate_questions render complete_ topic num_mcq num_freeform
               = (complete_ prompt, [Rendered (strip topic) m f; Completed prompt])
           | inr (type_name, message) =>
               generate_questions render complete_ topic num_mcq num_freeform
               = (error_dict type_name message, [Rendered (strip topic) m f])
           end).
Proof.
  unfold generate_questions. rewrite strip_empty_blank. split.
  - intros ->. split; reflexivity.
  - intros ->.
    exists (match num_mcq with None => DEFAULT_NUM_MCQ | Some n => Z.max 0 n end),
           (match num_freeform with
            | None => DEFAULT_NUM_FREEFORM
            | Some n => Z.max 0 n
            end).
    split; [destruct num_mcq; unfold DEFAULT_NUM_MCQ; lia|].
    split; [destruct num_freeform; unfold DEFAULT_NUM_FREEFORM; lia|].
    split; [intros ->; reflexivity|]. split; [intros ->; reflexivity|].
    split; [intros n ->; reflexivity|]. split; [intros n ->; reflexivity|].
    destruct (render _ _ _) as [prompt | [type_name message]]; reflexivity.
Qed.

End Llm_facts.
